(** * convert_docx_to_txt.py: reading order of text and images in a DOCX

    A shallow embedding of [src/convert_docx_to_txt.py] and the properties
    of its two components: the structure extractor
    ([parse_docx_structure]) and the renderer ([convert_docx_to_txt]).

    Conventions of the embedding:
    - a Python [str] is a list of Unicode code points ([list N]), so that
      [str.strip] can follow Python's notion of white space;
    - [bytes] is a list of bytes;
    - a [dict] is a [gmap];
    - an exception is a value of [exc] carried by [result];
    - library calls whose code is not part of the script (the XML parser,
      python-docx, base64, the HTTP client) are Section variables. *)

From Stdlib Require Import String Ascii NArith List DecimalString.
From Stdlib.Strings Require Import Byte.
From stdpp Require Import gmap list option.

Set Warnings "-register-all".

Open Scope N_scope.
Open Scope list_scope.

(** ** Python strings *)

Abbreviation str := (list N).
Abbreviation bytes := (list Byte.byte).

Module Str.

(** UTF-8 decoding, used only to write literals of the source in the text
  of this file. *)
Fixpoint utf8_decode (bs : list N) : str :=
match bs with
| [] => []
| b :: r =>
    if b <? 128 then b :: utf8_decode r
    else if b <? 224 then
      match r with
      | c :: r1 => ((b - 192) * 64 + (c - 128)) :: utf8_decode r1
      | [] => []
      end
    else if b <? 240 then
      match r with
      | c :: d :: r2 =>
          ((b - 224) * 4096 + (c - 128) * 64 + (d - 128)) :: utf8_decode r2
      | _ => []
      end
    else
      match r with
      | c :: d :: e :: r3 =>
          ((b - 240) * 262144 + (c - 128) * 4096 + (d - 128) * 64 + (e - 128))
            :: utf8_decode r3
      | _ => []
      end
end.

Definition lit (s : string) : str :=
utf8_decode (List.map N_of_ascii (list_ascii_of_string s)).

(** [str(n)] for a non-negative [int]. *)
Definition of_nat (n : nat) : str :=
List.map N_of_ascii (list_ascii_of_string (NilEmpty.string_of_uint (Nat.to_uint n))).

(** [ch.isspace()]: CPython's [_Py_ascii_whitespace] table and
  [_PyUnicode_IsWhitespace]. *)
Definition isspace (c : N) : bool :=
((9 <=? c) && (c <=? 13)) || ((28 <=? c) && (c <=? 32))
|| (c =? 133) || (c =? 160) || (c =? 5760)
|| ((8192 <=? c) && (c <=? 8202))
|| (c =? 8232) || (c =? 8233) || (c =? 8239) || (c =? 8287) || (c =? 12288).

Fixpoint lstrip (s : str) : str :=
match s with
| [] => []
| c :: r => if isspace c then lstrip r else s
end.

Definition rstrip (s : str) : str := rev (lstrip (rev s)).

(** [s.strip()] *)
Definition strip (s : str) : str := rstrip (lstrip s).

(** [s.startswith(p)] *)
Fixpoint startswith (s p : str) : bool :=
match p, s with
| [], _ => true
| _ :: _, [] => false
| a :: p', b :: s' => (a =? b) && startswith s' p'
end.

(** [p in s] for two strings: substring test. *)
Fixpoint contains (s p : str) : bool :=
startswith s p || match s with [] => false | _ :: s' => contains s' p end.

(** [''.join(parts)] *)
Definition concat_all (parts : list str) : str := concat parts.

(** [sep.join(parts)] *)
Fixpoint join (sep : str) (parts : list str) : str :=
match parts with
| [] => []
| [p] => p
| p :: rest => p ++ sep ++ join sep rest
end.

(** [s.split(sep)] for a one-character separator. *)
Fixpoint split (sep : N) (s : str) : list str :=
match s with
| [] => [[]]
| c :: r =>
    if c =? sep then [] :: split sep r
    else match split sep r with
         | [] => [[c]]
         | p :: ps => (c :: p) :: ps
         end
end.

(** ASCII part of [s.lower()]. *)
Definition lower (s : str) : str :=
List.map (fun c => if (65 <=? c) && (c <=? 90) then c + 32 else c) s.

(** Truth value of a string: non-empty. *)
Definition truthy (s : str) : bool :=
match s with [] => false | _ => true end.

End Str.

Notation "'u8' s" := (Str.lit s%string) (at level 1, s at level 0, only parsing).

(** ** Exceptions and results *)

Inductive exc : Type :=
  | KeyError (key : str)            (* missing dict key or zip member *)
  | IndexError
  | TypeError
  | ParseError                      (* xml.etree.ElementTree.ParseError *)
  | PackageError                    (* raised by python-docx's Document() *)
  | RequestError (msg : str)        (* requests: connection, timeout *)
  | HTTPError (status : nat)        (* response.raise_for_status() *)
  | JSONDecodeError.                (* response.json() *)

Inductive result (A : Type) : Type :=
  | Ok (a : A)
  | Raise (e : exc).
Arguments Ok {A} a.
Arguments Raise {A} e.

#[global] Instance result_bind : MBind result :=
  fun A B k r =>
    match r with
    | Ok a => k a
    | Raise e => Raise e
    end.

(** ** xml.etree.ElementTree *)

Module ET.

(** An element: tag in Clark notation ([{uri}local]), attribute dict,
  [text] ([None] when the element has no character data before its first
  child) and children. *)
Inductive Element : Type :=
| mkElement (tag : str) (attrib : gmap str str) (text : option str)
            (children : list Element).

Definition tag (e : Element) : str := let '(mkElement t _ _ _) := e in t.
Definition attrib (e : Element) : gmap str str := let '(mkElement _ a _ _) := e in a.
Definition text (e : Element) : option str := let '(mkElement _ _ x _) := e in x.
Definition children (e : Element) : list Element := let '(mkElement _ _ _ c) := e in c.

(** [e.get(key)] *)
Definition get (e : Element) (key : str) : option str := attrib e !! key.

(** [e.iter()]: the element and all its descendants, in document order. *)
Fixpoint iter (e : Element) : list Element :=
match e with
| mkElement _ _ _ cs => e :: concat (List.map iter cs)
end.

(** [e.findall('.//tag')]: the proper descendants with that tag, in
  document order. *)
Definition findall (e : Element) (t : str) : list Element :=
List.filter (fun d => bool_decide (tag d = t)) (concat (List.map iter (children e))).

(** [e.find('.//tag')]: the first of them, or [None]. *)
Definition find (e : Element) (t : str) : option Element :=
head (findall e t).

End ET.

(** ** zipfile *)

(** An opened archive: its members in directory order, with their
    contents.  Names may repeat; [read] answers with the last member of
    that name, as [ZipFile.NameToInfo] does. *)
Abbreviation zipfile := (list (str * bytes)).

Definition namelist (z : zipfile) : list str := List.map fst z.

Fixpoint zip_lookup (z : zipfile) (name : str) : option bytes :=
  match z with
  | [] => None
  | (n, d) :: rest =>
      match zip_lookup rest name with
      | Some d' => Some d'
      | None => if bool_decide (n = name) then Some d else None
      end
  end.

(** [zip_ref.read(name)]: [KeyError] when there is no such member. *)
Definition zip_read (z : zipfile) (name : str) : result bytes :=
  match zip_lookup z name with
  | Some d => Ok d
  | None => Raise (KeyError name)
  end.

(** ** The structure extractor *)

(** The tuples [('text', content)] and [('image', image_path_in_zip)]. *)
Inductive element : Type :=
  | Text (content : str)
  | Image (image_path : str).

#[global] Instance element_eq_dec : EqDecision element.
Proof. solve_decision. Defined.

(** Qualified names, as [findall] expands the prefixes of its [ns] dict. *)
Definition w_p : str :=
  u8 "{http://schemas.openxmlformats.org/wordprocessingml/2006/main}p".
Definition w_t : str :=
  u8 "{http://schemas.openxmlformats.org/wordprocessingml/2006/main}t".
Definition w_drawing : str :=
  u8 "{http://schemas.openxmlformats.org/wordprocessingml/2006/main}drawing".
Definition a_blip : str :=
  u8 "{http://schemas.openxmlformats.org/drawingml/2006/main}blip".
Definition r_embed_key : str :=
  u8 "{http://schemas.openxmlformats.org/officeDocument/2006/relationships}embed".
Definition r_Relationship : str :=
  u8 "{http://schemas.openxmlformats.org/package/2006/relationships}Relationship".

Definition rels_part : str := u8 "word/_rels/document.xml.rels".
Definition document_part : str := u8 "word/document.xml".

(** [extract_images_from_docx]: every member under [word/media/], keyed by
    its full name.  A listed name can always be read, so the [None] branch
    is never taken ([zip_lookup_listed]). *)
Definition extract_images_from_docx (z : zipfile) : gmap str bytes :=
  fold_left
    (fun images file_info =>
       if Str.startswith file_info (u8 "word/media/") then
         match zip_lookup z file_info with
         | Some data => <[file_info := data]> images
         | None => images
         end
       else images)
    (namelist z) ∅.

(** The text runs of a paragraph: [t.text] of every [w:t] below it, when
    truthy. *)
Definition text_parts_of (paragraph : ET.Element) : list str :=
  fold_left
    (fun text_parts t =>
       match ET.text t with
       | Some s => if Str.truthy s then text_parts ++ [s] else text_parts
       | None => text_parts
       end)
    (ET.findall paragraph w_t) [].

(** [if text_parts: text_content = ''.join(text_parts).strip();
     if text_content: elements.append(('text', text_content))] *)
Definition append_text (elements : list element) (text_parts : list str)
  : list element :=
  match text_parts with
  | [] => elements
  | _ =>
      let text_content := Str.strip (Str.concat_all text_parts) in
      if Str.truthy text_content then elements ++ [Text text_content]
      else elements
  end.

(** *** Primary strategy (lines 120-182) *)

(** Lines 129-133. The key is [rel.get('Id')], which may be [None]. *)
Definition primary_rel_to_image (rels_root : ET.Element) : gmap (option str) str :=
  fold_left
    (fun rel_to_image rel =>
       let target := default [] (ET.get rel (u8 "Target")) in
       if Str.startswith target (u8 "media/")
       then <[ET.get rel (u8 "Id") := u8 "word/" ++ target]> rel_to_image
       else rel_to_image)
    (ET.findall rels_root r_Relationship) ∅.

(** Lines 158-174: the loop over the drawings of one paragraph, leaving at
    the first one that resolves.  State: [elements], [image_found],
    [text_parts]. *)
Fixpoint primary_drawings (rel_to_image : gmap (option str) str)
    (images : gmap str bytes) (drawings : list ET.Element)
    (elements : list element) (text_parts : list str)
  : list element * bool * list str :=
  match drawings with
  | [] => (elements, false, text_parts)
  | drawing :: rest =>
      let next := primary_drawings rel_to_image images rest elements text_parts in
      match ET.find drawing a_blip with
      | None => next
      | Some blip =>
          match ET.get blip r_embed_key with
          | None => next
          | Some r_embed =>
              if Str.truthy r_embed then
                match rel_to_image !! Some r_embed with
                | None => next
                | Some image_path =>
                    match images !! image_path with
                    | None => next
                    | Some _ =>
                        (append_text elements text_parts ++ [Image image_path],
                         true, [])
                    end
                end
              else next
          end
      end
  end.

(** Lines 146-180: the body of the loop over the paragraphs. *)
Definition primary_paragraph (rel_to_image : gmap (option str) str)
    (images : gmap str bytes) (elements : list element)
    (paragraph : ET.Element) : list element :=
  let text_parts := text_parts_of paragraph in
  let drawings := ET.findall paragraph w_drawing in
  let '(elements, image_found, text_parts) :=
    match drawings with
    | [] => (elements, false, text_parts)
    | _ => primary_drawings rel_to_image images drawings elements text_parts
    end in
  if negb image_found then append_text elements text_parts else elements.

(** *** Fallback strategy (lines 188-244) *)

(** Lines 204-208. *)
Definition fallback_rel_to_image (rels_root : ET.Element) : gmap (option str) str :=
  fold_left
    (fun rel_to_image rel =>
       let target := default [] (ET.get rel (u8 "Target")) in
       if Str.startswith target (u8 "media/")
       then <[ET.get rel (u8 "Id") := u8 "word/" ++ target]> rel_to_image
       else rel_to_image)
    (ET.findall rels_root r_Relationship) ∅.

(** Lines 223-237. *)
Fixpoint fallback_drawings (rel_to_image : gmap (option str) str)
    (images : gmap str bytes) (drawings : list ET.Element)
    (elements : list element) (text_parts : list str)
  : list element * bool * list str :=
  match drawings with
  | [] => (elements, false, text_parts)
  | drawing :: rest =>
      let next := fallback_drawings rel_to_image images rest elements text_parts in
      match ET.find drawing a_blip with
      | None => next
      | Some blip =>
          match ET.get blip r_embed_key with
          | None => next
          | Some r_embed =>
              if Str.truthy r_embed then
                match rel_to_image !! Some r_embed with
                | None => next
                | Some image_path =>
                    match images !! image_path with
                    | None => next
                    | Some _ =>
                        (append_text elements text_parts ++ [Image image_path],
                         true, [])
                    end
                end
              else next
          end
      end
  end.

(** Lines 213-242. *)
Definition fallback_paragraph (rel_to_image : gmap (option str) str)
    (images : gmap str bytes) (elements : list element)
    (paragraph : ET.Element) : list element :=
  let text_parts := text_parts_of paragraph in
  let drawings := ET.findall paragraph w_drawing in
  let '(elements, image_found, text_parts) :=
    match drawings with
    | [] => (elements, false, text_parts)
    | _ => fallback_drawings rel_to_image images drawings elements text_parts
    end in
  if negb image_found then append_text elements text_parts else elements.

Section Extractor.

(** [ET.fromstring]: the tree of a well-formed part, [ParseError]
    otherwise. *)
Variable fromstring : bytes -> result ET.Element.

(** [HAS_DOCX]: whether python-docx could be imported. *)
Variable HAS_DOCX : bool.

(** python-docx's [Document(docx_path)], of which the script only uses
    whether it raises. *)
Variable Document : zipfile -> result unit.

(** Lines 121-180, the body of the [try].  Every operation that can raise
    comes before the loop over the paragraphs, so when the block raises
    nothing has been appended to [elements]. *)
Definition primary_block (z : zipfile) (images : gmap str bytes)
    (elements : list element) : result (list element) :=
  _ ← Document z;
  rels_xml ← zip_read z rels_part;
  rels_root ← fromstring rels_xml;
  let rel_to_image := primary_rel_to_image rels_root in
  document_xml ← zip_read z document_part;
  root ← fromstring document_xml;
  Ok (fold_left (primary_paragraph rel_to_image images)
                (ET.findall root w_p) elements).

(** Lines 199-210: [try: ... except: rel_to_image = {}]. *)
Definition fallback_relationships (z : zipfile) : gmap (option str) str :=
  match (rels_xml ← zip_read z rels_part;
         rels_root ← fromstring rels_xml;
         Ok (fallback_rel_to_image rels_root)) with
  | Ok rel_to_image => rel_to_image
  | Raise _ => ∅
  end.

(** Lines 188-242. *)
Definition fallback_block (z : zipfile) (images : gmap str bytes)
    (elements : list element) : result (list element) :=
  document_xml ← zip_read z document_part;
  root ← fromstring document_xml;
  let rel_to_image := fallback_relationships z in
  Ok (fold_left (fallback_paragraph rel_to_image images)
                (ET.findall root w_p) elements).

Definition parse_docx_structure (z : zipfile)
  : result (list element * gmap str bytes) :=
  let elements := [] in
  let images := extract_images_from_docx z in
  let run_fallback :=
    elements ← fallback_block z images elements;
    Ok (elements, images) in
  if HAS_DOCX then
    match primary_block z images elements with
    | Ok elements => Ok (elements, images)
    | Raise _ => run_fallback
    end
  else run_fallback.

End Extractor.

(** ** pathlib *)

(** [Path(p).name] on a POSIX system: the last component, where empty
    components and [.] are dropped; the empty string when none is left. *)
Definition Path_name (p : str) : str :=
  List.last
    (List.filter (fun c => negb (bool_decide (c = []) || bool_decide (c = u8 ".")))
                 (Str.split 47 p))
    [].

(** [name.rfind('.')] *)
Fixpoint rfind_dot (name : str) : option nat :=
  match name with
  | [] => None
  | c :: r =>
      match rfind_dot r with
      | Some i => Some (S i)
      | None => if c =? 46 then Some 0%nat else None
      end
  end.

(** [Path(p).suffix]: from the last dot of the name, unless that dot is the
    first or the last character. *)
Definition Path_suffix (p : str) : str :=
  let name := Path_name p in
  match rfind_dot name with
  | Some i =>
      if ((0 <? i)%nat && (i <? length name - 1)%nat)%bool then drop i name else []
  | None => []
  end.

(** ** The description provider *)

(** The values [response.json()] can produce. *)
Inductive PyVal : Type :=
  | PNone
  | PBool (b : bool)
  | PInt (z : Z)
  | PFloat (literal : str)
  | PStr (s : str)
  | PList (items : list PyVal)
  | PDict (items : list (str * PyVal)).

Definition is_str (v : PyVal) : bool :=
  match v with PStr _ => true | _ => false end.

Fixpoint dict_lookup (items : list (str * PyVal)) (key : str) : option PyVal :=
  match items with
  | [] => None
  | (k, v) :: rest => if bool_decide (k = key) then Some v else dict_lookup rest key
  end.

(** [key in v] for a string [key]. *)
Definition py_contains (v : PyVal) (key : str) : result bool :=
  match v with
  | PDict items => Ok (bool_decide (is_Some (dict_lookup items key)))
  | PList items =>
      Ok (existsb (fun x => match x with
                            | PStr s => bool_decide (s = key)
                            | _ => false
                            end) items)
  | PStr s => Ok (Str.contains s key)
  | _ => Raise TypeError
  end.

(** [v[key]] for a string [key]. *)
Definition py_getitem (v : PyVal) (key : str) : result PyVal :=
  match v with
  | PDict items =>
      match dict_lookup items key with
      | Some x => Ok x
      | None => Raise (KeyError key)
      end
  | _ => Raise TypeError
  end.

(** [v[0]].  The keys of a decoded JSON object are strings, so [0] is never
    one of them. *)
Definition py_getitem0 (v : PyVal) : result PyVal :=
  match v with
  | PList (x :: _) => Ok x
  | PList [] => Raise IndexError
  | PStr (c :: _) => Ok (PStr [c])
  | PStr [] => Raise IndexError
  | PDict _ => Raise (KeyError (u8 "0"))
  | _ => Raise TypeError
  end.

(** [len(v)] *)
Definition py_len (v : PyVal) : result nat :=
  match v with
  | PList items => Ok (length items)
  | PStr s => Ok (length s)
  | PDict items => Ok (length items)
  | _ => Raise TypeError
  end.

(** [sep.join(lines)]: [TypeError] when an item is not a string. *)
Fixpoint py_join_items (lines : list PyVal) : result (list str) :=
  match lines with
  | [] => Ok []
  | PStr s :: rest => rest' ← py_join_items rest; Ok (s :: rest')
  | _ :: _ => Raise TypeError
  end.

Definition py_join (sep : str) (lines : list PyVal) : result str :=
  items ← py_join_items lines; Ok (Str.join sep items).

(** The request of lines 69-97. *)
Record Request : Type := mkRequest {
  req_url : str;
  req_authorization : str;
  req_model : str;
  req_prompt : str;
  req_image_url : str;
  req_max_tokens : nat;
  req_timeout : nat
}.

Record Response : Type := mkResponse {
  status_code : nat;
  json : result PyVal          (* [response.json()] *)
}.

(** [response.raise_for_status()] *)
Definition raise_for_status (r : Response) : result unit :=
  if ((400 <=? status_code r)%nat && (status_code r <? 600)%nat)%bool
  then Raise (HTTPError (status_code r))
  else Ok tt.

Definition OPENROUTER_API_URL : str :=
  u8 "https://openrouter.ai/api/v1/chat/completions".

Definition prompt : str :=
  u8 "Опиши подробно это изображение. Если на нем есть текст, перепиши его полностью. Если это диаграмма, график или схема, опиши их структуру и содержание.".

(** [mime_types.get(ext, 'image/png')] *)
Definition mime_type_of (ext : str) : str :=
  if bool_decide (ext = u8 ".png") then u8 "image/png"
  else if bool_decide (ext = u8 ".jpg") then u8 "image/jpeg"
  else if bool_decide (ext = u8 ".jpeg") then u8 "image/jpeg"
  else if bool_decide (ext = u8 ".gif") then u8 "image/gif"
  else if bool_decide (ext = u8 ".webp") then u8 "image/webp"
  else u8 "image/png".

Section Provider.

(** The outside world as the HTTP client sees it. *)
Variable World : Type.

(** [requests.post(...)]: a response, or an exception of the client. *)
Variable requests_post : World -> Request -> result Response * World.

(** [base64.b64encode(data).decode('utf-8')] *)
Variable b64encode : bytes -> str.

(** [str(e)] *)
Variable exc_str : exc -> str.

(** The module globals read from the environment. *)
Variable OPENROUTER_API_KEY : str.
Variable VISION_MODEL : str.

Definition get_image_base64 (image_data : bytes) : str := b64encode image_data.

Definition no_description (image_name : str) : PyVal :=
  PStr (u8 "[Изображение: " ++ image_name ++ u8 " - Не удалось получить описание]").

(** Lines 100-104, on the decoded body. *)
Definition read_result (res : PyVal) (image_name : str) : result PyVal :=
  has ← py_contains res (u8 "choices");
  if has : bool then
    choices ← py_getitem res (u8 "choices");
    n ← py_len choices;
    if (0 <? n)%nat then
      first ← py_getitem res (u8 "choices");
      first ← py_getitem0 first;
      message ← py_getitem first (u8 "message");
      py_getitem message (u8 "content")
    else Ok (no_description image_name)
  else Ok (no_description image_name).

(** Lines 54-104, the body of the [try]. *)
Definition analyze_try (w : World) (image_data : bytes) (image_name : str)
  : result PyVal * World :=
  let image_base64 := get_image_base64 image_data in
  let ext := Str.lower (Path_suffix image_name) in
  let mime_type := mime_type_of ext in
  let '(response, w) :=
    requests_post w
      {| req_url := OPENROUTER_API_URL;
         req_authorization := u8 "Bearer " ++ OPENROUTER_API_KEY;
         req_model := VISION_MODEL;
         req_prompt := prompt;
         req_image_url := u8 "data:" ++ mime_type ++ u8 ";base64," ++ image_base64;
         req_max_tokens := 4000;
         req_timeout := 60 |} in
  (response ← response;
   _ ← raise_for_status response;
   res ← json response;
   read_result res image_name, w).

Definition analyze_image_with_api (w : World) (image_data : bytes)
    (image_name : str) : PyVal * World :=
  if negb (Str.truthy OPENROUTER_API_KEY) then
    (PStr (u8 "[Изображение: " ++ image_name ++ u8 " - API токен не найден]"), w)
  else
    let '(r, w) := analyze_try w image_data image_name in
    match r with
    | Ok description => (description, w)
    | Raise e =>
        (PStr (u8 "[Изображение: " ++ image_name ++ u8 " - Ошибка анализа: "
               ++ exc_str e ++ u8 "]"), w)
    end.

End Provider.

(** ** The renderer *)

(** What one call of [convert_docx_to_txt] leaves behind: the contents of
    the output file ([None] when the file was not opened for writing) and
    whether the call returned or raised. *)
Record Outcome : Type := mkOutcome {
  file : option str;
  status : result unit
}.

(** The line feed. *)
Definition nl : str := [10].

Section Renderer.

Variable World : Type.

(** The function bound to the global name [analyze_image_with_api] when
    [convert_docx_to_txt] runs. *)
Variable describe : World -> bytes -> str -> PyVal * World.

Definition image_label (image_count : nat) (image_name : str) : str :=
  nl ++ u8 "[ИЗОБРАЖЕНИЕ " ++ Str.of_nat image_count ++ u8 ": " ++ image_name ++ u8 "]".

Definition not_found_label (image_count : nat) (image_name : str) : str :=
  nl ++ u8 "[ИЗОБРАЖЕНИЕ " ++ Str.of_nat image_count ++ u8 ": " ++ image_name
    ++ u8 " - не найдено]".

(** Lines 266-281: the body of the loop over the elements.  State: the
    world, [result_lines], [image_count]. *)
Definition render_element (images : gmap str bytes)
    (st : World * list PyVal * nat) (e : element) : World * list PyVal * nat :=
  let '(w, result_lines, image_count) := st in
  match e with
  | Text content => (w, result_lines ++ [PStr content; PStr []], image_count)
  | Image content =>
      let image_count := S image_count in
      let image_name := Path_name content in
      match images !! content with
      | Some data =>
          let '(image_description, w) := describe w data image_name in
          (w,
           result_lines ++ [PStr (image_label image_count image_name);
                            image_description; PStr []],
           image_count)
      | None =>
          (w,
           result_lines ++ [PStr (not_found_label image_count image_name);
                            PStr []],
           image_count)
      end
  end.

(** Lines 262-281. *)
Definition render_elements (images : gmap str bytes) (w : World)
    (elements : list element) : World * list PyVal * nat :=
  fold_left (render_element images) elements (w, [], 0%nat).

(** Lines 257-288, after the structure has been parsed.  The output file
    is opened before the lines are joined, so a failing join leaves an
    empty file.  The write itself is taken to succeed: the encoding of the
    text in UTF-8, which fails on a lone surrogate, is not part of the
    model. *)
Definition render (w : World) (elements : list element)
    (images : gmap str bytes) : Outcome * World :=
  match elements with
  | [] => ({| file := None; status := Ok tt |}, w)
  | _ =>
      let '(w, result_lines, image_count) := render_elements images w elements in
      match py_join nl result_lines with
      | Ok text => ({| file := Some text; status := Ok tt |}, w)
      | Raise e => ({| file := Some []; status := Raise e |}, w)
      end
  end.

Variable fromstring : bytes -> result ET.Element.
Variable HAS_DOCX : bool.
Variable Document : zipfile -> result unit.

Definition convert_docx_to_txt (w : World) (z : zipfile) : Outcome * World :=
  match parse_docx_structure fromstring HAS_DOCX Document z with
  | Raise e => ({| file := None; status := Raise e |}, w)
  | Ok (elements, images) => render w elements images
  end.

End Renderer.

(** ** Fixtures *)

Module Fixtures.

Definition elem (t : str) (cs : list ET.Element) : ET.Element :=
  ET.mkElement t ∅ None cs.

Definition w_ns (local : string) : str :=
  u8 "{http://schemas.openxmlformats.org/wordprocessingml/2006/main}" ++ Str.lit local.

(** [<w:r><w:t>s</w:t></w:r>] *)
Definition run (s : string) : ET.Element :=
  elem (w_ns "r") [ET.mkElement w_t ∅ (Some (Str.lit s)) []].

(** [<w:drawing><wp:inline><a:graphic><a:graphicData><pic:pic>
     <pic:blipFill><a:blip r:embed="rid"/>...] *)
Definition drawing (rid : string) : ET.Element :=
  elem w_drawing
    [elem (u8 "{http://schemas.openxmlformats.org/drawingml/2006/wordprocessingDrawing}inline")
      [elem (u8 "{http://schemas.openxmlformats.org/drawingml/2006/main}graphic")
        [elem (u8 "{http://schemas.openxmlformats.org/drawingml/2006/main}graphicData")
          [elem (u8 "{http://schemas.openxmlformats.org/drawingml/2006/picture}pic")
            [elem (u8 "{http://schemas.openxmlformats.org/drawingml/2006/picture}blipFill")
              [ET.mkElement a_blip {[ r_embed_key := Str.lit rid ]} None []]]]]]].

(** [<w:r>] around it. *)
Definition drawing_run (rid : string) : ET.Element :=
  elem (w_ns "r") [drawing rid].

Definition paragraph (runs : list ET.Element) : ET.Element := elem w_p runs.

(** [<w:document><w:body>paragraphs</w:body></w:document>] *)
Definition document (paragraphs : list ET.Element) : ET.Element :=
  elem (w_ns "document") [elem (w_ns "body") paragraphs].

(** [<Relationship Id="rid" Target="target"/>] *)
Definition relationship (rid target : string) : ET.Element :=
  ET.mkElement r_Relationship
    (<[ u8 "Id" := Str.lit rid ]> {[ u8 "Target" := Str.lit target ]}) None [].

Definition relationships (rels : list ET.Element) : ET.Element :=
  elem (u8 "{http://schemas.openxmlformats.org/package/2006/relationships}Relationships") rels.

(** The parts of the fixtures are named by their bytes; [fromstring]
    answers with the tree each of them stands for. *)
Definition part (s : string) : bytes := list_byte_of_string s.

Definition same_bytes (a b : bytes) : bool :=
  bool_decide (List.map Byte.to_N a = List.map Byte.to_N b).

Definition fromstring (table : list (bytes * ET.Element)) (b : bytes)
  : result ET.Element :=
  match List.find (fun kv => same_bytes (fst kv) b) table with
  | Some kv => Ok (snd kv)
  | None => Raise ParseError
  end.

(** Title, a paragraph holding only image A, body text. *)
Definition title_image_body : ET.Element :=
  document [paragraph [run "Title"];
            paragraph [drawing_run "rId1"];
            paragraph [run "Body text"]].

Definition rels_A : ET.Element :=
  relationships [relationship "rId1" "media/A.png"].

(** A paragraph with a caption and three anchors: [rId9] is in no
    table, [rId1] and [rId2] are images A and B. *)
Definition caption_paragraph : ET.Element :=
  paragraph [run " Figure 1 "; drawing_run "rId9"; drawing_run "rId1";
             drawing_run "rId2"].

Definition caption_doc : ET.Element :=
  document [paragraph [run "Intro"]; caption_paragraph; paragraph [run "End"]].

(** Anchors that do not resolve: [rId9] is in no table, the target of
    [rId7] is not in the archive. *)
Definition dangling_doc : ET.Element :=
  document [paragraph [run "Intro"];
            paragraph [drawing_run "rId9"];
            paragraph [drawing_run "rId7"]].

(** A paragraph whose drawing is a text box holding a paragraph of its
    own:
    [<w:p><w:r><w:t>Outer</w:t></w:r><w:r><w:drawing>...<w:txbxContent>
     <w:p><w:r><w:t>Inner</w:t></w:r></w:p>...] *)
Definition inner_paragraph : ET.Element := paragraph [run "Inner"].

Definition textbox_paragraph : ET.Element :=
  paragraph [run "Outer";
             elem (w_ns "r")
               [elem w_drawing
                 [elem (u8 "{http://schemas.microsoft.com/office/word/2010/wordprocessingShape}txbx")
                   [elem (w_ns "txbxContent") [inner_paragraph]]]]].

Definition textbox_doc : ET.Element := document [textbox_paragraph].

(** Three paragraphs of text, the second of white space only. *)
Definition text_only_doc : ET.Element :=
  document [paragraph [run "First "; run "part"];
            paragraph [run "   "];
            paragraph [run " Last"]].

Definition rels_AB : ET.Element :=
  relationships [relationship "rId1" "media/A.png";
                 relationship "rId2" "media/B.png";
                 relationship "rId7" "media/missing.png"].

Definition trees : list (bytes * ET.Element) :=
  [(part "<title-image-body>", title_image_body); (part "<rels-A>", rels_A);
   (part "<caption>", caption_doc); (part "<dangling>", dangling_doc);
   (part "<rels-AB>", rels_AB)].

(** Two relationships with the same Id, and one that is no image. *)
Definition rels_twice : ET.Element :=
  relationships [relationship "rId1" "media/A.png";
                 relationship "rId1" "media/B.png";
                 relationship "rId3" "styles.xml"].

Definition more_trees : list (bytes * ET.Element) :=
  trees ++ [(part "<text-only>", text_only_doc); (part "<textbox>", textbox_doc)].

Definition png_A : bytes := part "PNG-A".
Definition png_B : bytes := part "PNG-B".

Definition docx_A : zipfile :=
  [(document_part, part "<title-image-body>");
   (rels_part, part "<rels-A>");
   (u8 "word/media/A.png", png_A)].

Definition docx_caption : zipfile :=
  [(document_part, part "<caption>");
   (rels_part, part "<rels-AB>");
   (u8 "word/media/A.png", png_A);
   (u8 "word/media/B.png", png_B)].

(** The same document in an archive without a relationships part. *)
Definition docx_no_rels : zipfile :=
  [(document_part, part "<caption>");
   (u8 "word/media/A.png", png_A);
   (u8 "word/media/B.png", png_B)].

(** The same document with a relationships part that is not XML. *)
Definition docx_bad_rels : zipfile :=
  [(document_part, part "<caption>");
   (rels_part, part "not xml");
   (u8 "word/media/A.png", png_A);
   (u8 "word/media/B.png", png_B)].

Definition docx_dangling : zipfile :=
  [(document_part, part "<dangling>");
   (rels_part, part "<rels-AB>");
   (u8 "word/media/A.png", png_A);
   (u8 "word/media/B.png", png_B)].

(** A provider stub that answers every image with the same text. *)
Definition stub (desc : string) (w : unit) (_ : bytes) (_ : str) : PyVal * unit :=
  (PStr (Str.lit desc), w).

(** A provider stub that counts its calls in the world. *)
Definition counting_stub (desc : string) (w : nat) (_ : bytes) (_ : str)
  : PyVal * nat :=
  (PStr (Str.lit desc), S w).

Definition opens (_ : zipfile) : result unit := Ok tt.

(** A provider whose answer is a JSON body with status 200. *)
Definition answers (body : PyVal) (w : unit) (_ : Request)
  : result Response * unit :=
  (Ok {| status_code := 200; json := Ok body |}, w).

(** [{"choices": [{"message": {"content": content}}]}] *)
Definition completion (content : PyVal) : PyVal :=
  PDict [(u8 "choices",
          PList [PDict [(u8 "message", PDict [(u8 "content", content)])]])].

(** A provider whose answer has the given status and a body that is not
    JSON. *)
Definition answers_status (code : nat) (w : unit) (_ : Request)
  : result Response * unit :=
  (Ok {| status_code := code; json := Raise JSONDecodeError |}, w).

Definition no_b64 (_ : bytes) : str := [].
Definition some_message (_ : exc) : str := u8 "error".
Definition key : str := u8 "sk-test".
Definition model : str := u8 "google/gemini-2.0-flash-001".

(** [<w:drawing>] holding a text box with the given paragraphs. *)
Definition textbox_drawing (paragraphs : list ET.Element) : ET.Element :=
  elem w_drawing
    [elem (u8 "{http://schemas.microsoft.com/office/word/2010/wordprocessingShape}txbx")
      [elem (w_ns "txbxContent") paragraphs]].

(** A paragraph with a caption, image A and a text box whose paragraph
    holds image B. *)
Definition picture_and_textbox : ET.Element :=
  paragraph [run "Cap"; drawing_run "rId1";
             elem (w_ns "r") [textbox_drawing [paragraph [drawing_run "rId2"]]]].

Definition picture_and_textbox_doc : ET.Element := document [picture_and_textbox].

Definition trees_textbox : list (bytes * ET.Element) :=
  [(part "<picture-textbox>", picture_and_textbox_doc); (part "<rels-AB>", rels_AB)].

Definition docx_textbox : zipfile :=
  [(document_part, part "<picture-textbox>");
   (rels_part, part "<rels-AB>");
   (u8 "word/media/A.png", png_A);
   (u8 "word/media/B.png", png_B)].

(** Image A, a text, image B. *)
Definition two_images_doc : ET.Element :=
  document [paragraph [drawing_run "rId1"];
            paragraph [run "Between"];
            paragraph [drawing_run "rId2"]].

Definition trees_two : list (bytes * ET.Element) :=
  [(part "<two-images>", two_images_doc); (part "<rels-AB>", rels_AB)].

Definition docx_two_images : zipfile :=
  [(document_part, part "<two-images>");
   (rels_part, part "<rels-AB>");
   (u8 "word/media/A.png", png_A);
   (u8 "word/media/B.png", png_B)].

End Fixtures.

(** ** Vocabulary of the properties *)

(** The trimmed text of a paragraph, and the [Text] element it gives when
    it is not empty. *)
Definition paragraph_text (paragraph : ET.Element) : str :=
  Str.strip (Str.concat_all (text_parts_of paragraph)).

Definition text_element (paragraph : ET.Element) : list element :=
  if Str.truthy (paragraph_text paragraph) then [Text (paragraph_text paragraph)]
  else [].

(** A drawing anchor resolves when its first blip carries a non-empty
    relationship-id that the Relationship Table maps to a path present in
    the Media Store. *)
Definition resolves (rel_to_image : gmap (option str) str)
    (images : gmap str bytes) (drawing : ET.Element) : option str :=
  blip ← ET.find drawing a_blip;
  r_embed ← ET.get blip r_embed_key;
  if Str.truthy r_embed then
    image_path ← rel_to_image !! Some r_embed;
    _ ← images !! image_path;
    Some image_path
  else None.

(** The image recognized for a paragraph: that of its first anchor that
    resolves. *)
Definition recognized_image (rel_to_image : gmap (option str) str)
    (images : gmap str bytes) (paragraph : ET.Element) : option str :=
  head (omap (resolves rel_to_image images) (ET.findall paragraph w_drawing)).

Definition image_element (rel_to_image : gmap (option str) str)
    (images : gmap str bytes) (paragraph : ET.Element) : list element :=
  match recognized_image rel_to_image images paragraph with
  | Some image_path => [Image image_path]
  | None => []
  end.

(** What one paragraph adds to [elements]. *)
Definition paragraph_elements (rel_to_image : gmap (option str) str)
    (images : gmap str bytes) (paragraph : ET.Element) : list element :=
  text_element paragraph ++ image_element rel_to_image images paragraph.

Definition is_image (e : element) : bool :=
  match e with Image _ => true | Text _ => false end.

Definition count_images (elements : list element) : nat :=
  length (List.filter is_image elements).

(** The non-empty trimmed texts of a list of paragraphs, and the lines the
    renderer writes for a list of texts: each text and an empty line. *)
Definition nonempty_texts (paragraphs : list ET.Element) : list str :=
  List.filter Str.truthy (List.map paragraph_text paragraphs).

Definition text_lines (texts : list str) : list str :=
  concat (List.map (λ t, [t; []]) texts).

(** The path of an [Image] element is a key of the media store. *)
Definition image_present (images : gmap str bytes) (e : element) : Prop :=
  match e with
  | Image image_path => is_Some (images !! image_path)
  | Text _ => True
  end.

(** The parsed main part and relationships part of an archive. *)
Definition parsed (fromstring : bytes -> result ET.Element) (z : zipfile)
    (name : str) : result ET.Element :=
  part ← zip_read z name; fromstring part.

(** A rendered text shows a "not found" block. *)
Definition has_not_found_block (text : str) : bool :=
  Str.contains text (u8 " - не найдено]").

(** The renderer with another behaviour in place of lines 279-281, to state
    that this branch is never taken. *)
Section RendererWithout.

Variable World : Type.
Variable describe : World -> bytes -> str -> PyVal * World.
Variable otherwise : World * list PyVal * nat -> str -> World * list PyVal * nat.

Definition render_element_otherwise (images : gmap str bytes)
    (st : World * list PyVal * nat) (e : element) : World * list PyVal * nat :=
  let '(w, result_lines, image_count) := st in
  match e with
  | Text content => (w, result_lines ++ [PStr content; PStr []], image_count)
  | Image content =>
      let image_count := S image_count in
      let image_name := Path_name content in
      match images !! content with
      | Some data =>
          let '(image_description, w) := describe w data image_name in
          (w,
           result_lines ++ [PStr (image_label image_count image_name);
                            image_description; PStr []],
           image_count)
      | None => otherwise st content
      end
  end.

End RendererWithout.

(** A provider that also records the arguments of its calls, in order,
    beside the world. *)
Definition logged (World : Type) (describe : World → bytes → str → PyVal * World)
    (wl : World * list (bytes * str)) (image_data : bytes) (image_name : str)
  : PyVal * (World * list (bytes * str)) :=
  let '(description, w) := describe wl.1 image_data image_name in
  (description, (w, wl.2 ++ [(image_data, image_name)])).

(** The calls a sequence of elements asks for: for each [Image] element
    whose path is in the media store, its bytes and the last segment of its
    path. *)
Definition image_calls (images : gmap str bytes) (elements : list element)
  : list (bytes * str) :=
  omap (λ e, match e with
             | Image image_path =>
                 (λ data, (data, Path_name image_path)) <$> images !! image_path
             | Text _ => None
             end)
       elements.

(** The request that [analyze_image_with_api] sends for an image. *)
Definition request_for (b64encode : bytes → str) (OPENROUTER_API_KEY VISION_MODEL : str)
    (image_data : bytes) (image_name : str) : Request :=
  {| req_url := OPENROUTER_API_URL;
     req_authorization := u8 "Bearer " ++ OPENROUTER_API_KEY;
     req_model := VISION_MODEL;
     req_prompt := prompt;
     req_image_url :=
       u8 "data:" ++ mime_type_of (Str.lower (Path_suffix image_name))
         ++ u8 ";base64," ++ b64encode image_data;
     req_max_tokens := 4000;
     req_timeout := 60 |}.

(** The exception with which a request fails before its body is read: that
    of the client, the error status of the response, or the decoding of a
    body that is not JSON. *)
Definition transport_failure (r : result Response) : option exc :=
  match r with
  | Raise e => Some e
  | Ok response =>
      match raise_for_status response with
      | Raise e => Some e
      | Ok _ => match json response with
                | Raise e => Some e
                | Ok _ => None
                end
      end
  end.

(** The placeholder of line 107. *)
Definition failure_placeholder (image_name reason : str) : PyVal :=
  PStr (u8 "[Изображение: " ++ image_name ++ u8 " - Ошибка анализа: "
        ++ reason ++ u8 "]").

(** The anchors of a paragraph that come after its recognized anchor give
    no element of the sequence. *)
Definition later_anchors_emit_nothing (rel_to_image : gmap (option str) str)
    (images : gmap str bytes) (root : ET.Element) (elements : list element)
  : Prop :=
  ∀ paragraph skipped anchor rest later image_path,
    In paragraph (ET.findall root w_p) →
    ET.findall paragraph w_drawing = skipped ++ anchor :: rest →
    Forall (λ d, resolves rel_to_image images d = None) skipped →
    is_Some (resolves rel_to_image images anchor) →
    In later rest →
    resolves rel_to_image images later = Some image_path →
    ¬ In (Image image_path) elements.

(** The lines the loop of the renderer writes for a sequence of elements,
    from a state of the world and a value of the counter; they are defined
    when all of them are strings. *)
Definition lines_of (World : Type) (describe : World → bytes → str → PyVal * World)
    (images : gmap str bytes) (w : World) (image_count : nat)
    (elements : list element) : result (list str) :=
  py_join_items
    (fold_left (render_element World describe images) elements
               (w, [], image_count)).1.2.

(** * Properties *)

(** ** The loops of the extractor *)

Lemma append_text_app (elements : list element) (paragraph : ET.Element) :
  append_text elements (text_parts_of paragraph) = elements ++ text_element paragraph.
Proof.
  unfold append_text, text_element, paragraph_text.
  destruct (text_parts_of paragraph) as [|s parts]; simpl.
  - by rewrite app_nil_r.
  - destruct (Str.truthy _); [done | by rewrite app_nil_r].
Qed.

(** The two strategies run the same code on a paragraph. *)
Lemma primary_rel_to_image_fallback (rels_root : ET.Element) :
  primary_rel_to_image rels_root = fallback_rel_to_image rels_root.
Proof. reflexivity. Qed.

Lemma primary_drawings_fallback rel_to_image images drawings elements text_parts :
  primary_drawings rel_to_image images drawings elements text_parts
  = fallback_drawings rel_to_image images drawings elements text_parts.
Proof.
  induction drawings as [|drawing rest IH]; simpl; [done |].
  by rewrite IH.
Qed.

Lemma primary_paragraph_fallback rel_to_image images elements paragraph :
  primary_paragraph rel_to_image images elements paragraph
  = fallback_paragraph rel_to_image images elements paragraph.
Proof.
  unfold primary_paragraph, fallback_paragraph.
  by rewrite primary_drawings_fallback.
Qed.

Lemma primary_loop_fallback rel_to_image images paragraphs elements :
  fold_left (primary_paragraph rel_to_image images) paragraphs elements
  = fold_left (fallback_paragraph rel_to_image images) paragraphs elements.
Proof.
  revert elements.
  induction paragraphs as [|p ps IH]; intros elements; simpl; [done |].
  by rewrite primary_paragraph_fallback, IH.
Qed.

(** One round of the loop over the drawings, by whether the anchor
    resolves. *)
Lemma fallback_drawings_cons rel_to_image images drawing rest elements text_parts :
  fallback_drawings rel_to_image images (drawing :: rest) elements text_parts
  = match resolves rel_to_image images drawing with
    | Some image_path =>
        (append_text elements text_parts ++ [Image image_path], true, [])
    | None => fallback_drawings rel_to_image images rest elements text_parts
    end.
Proof.
  unfold resolves; simpl.
  destruct (ET.find drawing a_blip) as [blip|]; simpl; [|done].
  destruct (ET.get blip r_embed_key) as [r_embed|]; simpl; [|done].
  destruct (Str.truthy r_embed); [|done].
  destruct (rel_to_image !! Some r_embed) as [image_path|]; simpl; [|done].
  by destruct (images !! image_path).
Qed.

Lemma fallback_drawings_spec rel_to_image images drawings elements text_parts :
  fallback_drawings rel_to_image images drawings elements text_parts
  = match head (omap (resolves rel_to_image images) drawings) with
    | Some image_path =>
        (append_text elements text_parts ++ [Image image_path], true, [])
    | None => (elements, false, text_parts)
    end.
Proof.
  induction drawings as [|drawing rest IH]; [done |].
  rewrite fallback_drawings_cons. simpl.
  destruct (resolves rel_to_image images drawing); [done | apply IH].
Qed.

Lemma fallback_paragraph_spec rel_to_image images elements paragraph :
  fallback_paragraph rel_to_image images elements paragraph
  = elements ++ text_element paragraph
      ++ image_element rel_to_image images paragraph.
Proof.
  unfold fallback_paragraph, image_element, recognized_image.
  assert (match ET.findall paragraph w_drawing with
          | [] => (elements, false, text_parts_of paragraph)
          | _ => fallback_drawings rel_to_image images
                   (ET.findall paragraph w_drawing) elements (text_parts_of paragraph)
          end
          = fallback_drawings rel_to_image images
              (ET.findall paragraph w_drawing) elements (text_parts_of paragraph))
    as -> by (by destruct (ET.findall paragraph w_drawing)).
  rewrite fallback_drawings_spec.
  destruct (head _) as [image_path|]; simpl.
  - by rewrite append_text_app, <- app_assoc.
  - by rewrite append_text_app, app_nil_r.
Qed.

Lemma fallback_loop_spec rel_to_image images paragraphs elements :
  fold_left (fallback_paragraph rel_to_image images) paragraphs elements
  = elements ++ concat (List.map (paragraph_elements rel_to_image images) paragraphs).
Proof.
  revert elements.
  induction paragraphs as [|p ps IH]; intros elements; simpl.
  - by rewrite app_nil_r.
  - rewrite IH, fallback_paragraph_spec. unfold paragraph_elements.
    by rewrite <- !app_assoc.
Qed.

Lemma fallback_loop_app rel_to_image images before after elements :
  fold_left (fallback_paragraph rel_to_image images) (before ++ after) elements
  = fold_left (fallback_paragraph rel_to_image images) before elements
      ++ fold_left (fallback_paragraph rel_to_image images) after [].
Proof.
  rewrite !fallback_loop_spec, map_app, concat_app. simpl.
  by rewrite app_assoc.
Qed.

(** ** The two strategies *)

Section ExtractorFacts.

Variable fromstring : bytes -> result ET.Element.
Variable HAS_DOCX : bool.
Variable Document : zipfile -> result unit.

(** When the primary strategy returns, the fallback run on the same
    archive returns the same list. *)
Lemma primary_block_fallback z images elements elements' :
  primary_block fromstring Document z images elements = Ok elements' →
  fallback_block fromstring z images elements = Ok elements'.
Proof.
  unfold primary_block, fallback_block, fallback_relationships.
  destruct (Document z) as [[]|e]; simpl; [|done].
  destruct (zip_read z rels_part) as [rels_xml|e]; simpl; [|done].
  destruct (fromstring rels_xml) as [rels_root|e]; simpl; [|done].
  destruct (zip_read z document_part) as [document_xml|e]; simpl; [|done].
  destruct (fromstring document_xml) as [root|e]; simpl; [|done].
  by rewrite primary_loop_fallback, primary_rel_to_image_fallback.
Qed.

(** So the result of [parse_docx_structure] is that of the fallback,
    whatever python-docx does. *)
Lemma parse_docx_structure_fallback z :
  parse_docx_structure fromstring HAS_DOCX Document z
  = (elements ← fallback_block fromstring z (extract_images_from_docx z) [];
     Ok (elements, extract_images_from_docx z)).
Proof.
  unfold parse_docx_structure.
  destruct HAS_DOCX; [|done].
  destruct (primary_block _ _ _ _ _) as [elements|e] eqn:Hp; [|done].
  by rewrite (primary_block_fallback _ _ _ _ Hp).
Qed.

(** The extractor returns exactly when the main part can be read and
    parsed, and then with the elements of its paragraphs in document
    order. *)
Lemma parse_docx_structure_spec z :
  parse_docx_structure fromstring HAS_DOCX Document z
  = (root ← parsed fromstring z document_part;
     Ok (concat (List.map (paragraph_elements (fallback_relationships fromstring z)
                                        (extract_images_from_docx z))
                          (ET.findall root w_p)),
         extract_images_from_docx z)).
Proof.
  rewrite parse_docx_structure_fallback.
  unfold fallback_block, parsed.
  destruct (zip_read z document_part) as [document_xml|e]; simpl; [|done].
  destruct (fromstring document_xml) as [root|e]; simpl; [|done].
  by rewrite fallback_loop_spec.
Qed.

Lemma parse_docx_structure_inv z elements images :
  parse_docx_structure fromstring HAS_DOCX Document z = Ok (elements, images) →
  images = extract_images_from_docx z ∧
  ∃ root,
    parsed fromstring z document_part = Ok root ∧
    elements = concat (List.map (paragraph_elements (fallback_relationships fromstring z)
                                             images)
                           (ET.findall root w_p)).
Proof.
  rewrite parse_docx_structure_spec.
  destruct (parsed fromstring z document_part) as [root|e]; simpl; [|done].
  intros [= <- <-]. eauto.
Qed.

End ExtractorFacts.

(** ** Resolution of anchors *)

Lemma resolves_present rel_to_image images drawing image_path :
  resolves rel_to_image images drawing = Some image_path →
  is_Some (images !! image_path).
Proof.
  unfold resolves.
  destruct (ET.find drawing a_blip) as [blip|]; simpl; [|done].
  destruct (ET.get blip r_embed_key) as [r_embed|]; simpl; [|done].
  destruct (Str.truthy r_embed); [|done].
  destruct (rel_to_image !! Some r_embed) as [p|]; simpl; [|done].
  destruct (images !! p) as [data|] eqn:Hp; simpl; [|done].
  intros [= <-]. eauto.
Qed.

Lemma resolves_empty images drawing :
  resolves ∅ images drawing = None.
Proof.
  unfold resolves.
  destruct (ET.find drawing a_blip) as [blip|]; simpl; [|done].
  destruct (ET.get blip r_embed_key) as [r_embed|]; simpl; [|done].
  destruct (Str.truthy r_embed); [|done].
  by rewrite lookup_empty.
Qed.

Lemma first_resolved_skip rel_to_image images skipped drawings :
  Forall (λ d, resolves rel_to_image images d = None) skipped →
  head (omap (resolves rel_to_image images) (skipped ++ drawings))
  = head (omap (resolves rel_to_image images) drawings).
Proof.
  induction 1 as [|d skipped Hd _ IH]; simpl; [done |].
  by rewrite Hd.
Qed.

Lemma first_resolved_present rel_to_image images drawings image_path :
  head (omap (resolves rel_to_image images) drawings) = Some image_path →
  is_Some (images !! image_path).
Proof.
  induction drawings as [|d ds IH]; simpl; [done |].
  destruct (resolves rel_to_image images d) as [p|] eqn:Hd; simpl.
  - intros [= <-]. by apply resolves_present in Hd.
  - apply IH.
Qed.

Lemma image_element_empty images paragraph :
  image_element ∅ images paragraph = [].
Proof.
  unfold image_element, recognized_image.
  rewrite <- (app_nil_r (ET.findall paragraph w_drawing)).
  rewrite first_resolved_skip; [done |].
  apply Forall_forall. intros d _. apply resolves_empty.
Qed.

Lemma paragraph_elements_present rel_to_image images paragraph :
  Forall (image_present images) (paragraph_elements rel_to_image images paragraph).
Proof.
  unfold paragraph_elements, text_element, image_element, recognized_image.
  apply Forall_app. split.
  - destruct (Str.truthy _); repeat constructor.
  - destruct (head _) as [p|] eqn:Hp; repeat constructor.
    simpl. by eapply first_resolved_present.
Qed.

(** ** Properties of the extractor *)

(** C1. For a paragraph with a recognized image, the sequence returned by
    [parse_docx_structure] is made of the elements of the paragraphs before
    it, then the [Text] element of its trimmed text when that is not empty,
    then its [Image] element, then the elements of the paragraphs after it:
    the text comes immediately before the image and nothing of this
    paragraph follows. *)
Theorem C1_text_immediately_before_image
    (fromstring : bytes → result ET.Element) (HAS_DOCX : bool)
    (Document : zipfile → result unit) (z : zipfile)
    (elements : list element) (images : gmap str bytes) (root : ET.Element)
    (before after : list ET.Element) (paragraph : ET.Element) (image_path : str) :
  parse_docx_structure fromstring HAS_DOCX Document z = Ok (elements, images) →
  parsed fromstring z document_part = Ok root →
  ET.findall root w_p = before ++ paragraph :: after →
  recognized_image (fallback_relationships fromstring z) images paragraph
    = Some image_path →
  elements
  = concat (List.map (paragraph_elements (fallback_relationships fromstring z) images)
                     before)
    ++ text_element paragraph ++ [Image image_path]
    ++ concat (List.map (paragraph_elements (fallback_relationships fromstring z) images)
                        after).
Proof.
  intros Hparse Hroot Hsplit Himage.
  apply parse_docx_structure_inv in Hparse as (-> & root' & Hroot' & ->).
  rewrite Hroot in Hroot'. injection Hroot' as <-.
  rewrite Hsplit, map_app, concat_app. simpl.
  unfold paragraph_elements at 2, image_element. rewrite Himage.
  by rewrite <- !app_assoc.
Qed.

Lemma C1_witness :
  [Text (u8 "Intro"); Text (u8 "Figure 1"); Image (u8 "word/media/A.png");
   Text (u8 "End")]
  = concat (List.map (paragraph_elements
                        (fallback_relationships
                           (Fixtures.fromstring Fixtures.trees) Fixtures.docx_caption)
                        (extract_images_from_docx Fixtures.docx_caption))
                     [Fixtures.paragraph [Fixtures.run "Intro"]])
    ++ text_element Fixtures.caption_paragraph
    ++ [Image (u8 "word/media/A.png")]
    ++ concat (List.map (paragraph_elements
                           (fallback_relationships
                              (Fixtures.fromstring Fixtures.trees) Fixtures.docx_caption)
                           (extract_images_from_docx Fixtures.docx_caption))
                        [Fixtures.paragraph [Fixtures.run "End"]]).
Proof.
  apply (C1_text_immediately_before_image
           (Fixtures.fromstring Fixtures.trees) true Fixtures.opens
           Fixtures.docx_caption _ _ Fixtures.caption_doc);
    vm_compute; reflexivity.
Defined.

Lemma first_resolved_split rel_to_image images drawings image_path :
  head (omap (resolves rel_to_image images) drawings) = Some image_path →
  ∃ skipped anchor rest,
    drawings = skipped ++ anchor :: rest
    ∧ Forall (λ d, resolves rel_to_image images d = None) skipped
    ∧ resolves rel_to_image images anchor = Some image_path.
Proof.
  induction drawings as [|d ds IH]; simpl; [done |].
  destruct (resolves rel_to_image images d) as [p|] eqn:Hd; simpl.
  - intros [= <-]. by exists [], d, ds.
  - intros Hhead. destruct (IH Hhead) as (skipped & anchor & rest & -> & Hs & Ha).
    exists (d :: skipped), anchor, rest. split; [done |]. split; [|done].
    by constructor.
Qed.

(** Every [Image] of a sequence of rounds is that of the first anchor that
    resolves in one of the paragraphs. *)
Lemma image_elements_from_first_resolved rel_to_image images paragraphs image_path :
  In (Image image_path)
     (concat (List.map (paragraph_elements rel_to_image images) paragraphs)) →
  ∃ paragraph skipped anchor rest,
    In paragraph paragraphs
    ∧ ET.findall paragraph w_drawing = skipped ++ anchor :: rest
    ∧ Forall (λ d, resolves rel_to_image images d = None) skipped
    ∧ resolves rel_to_image images anchor = Some image_path.
Proof.
  intros Hin. apply in_concat in Hin as (l & Hl & Hin).
  apply in_map_iff in Hl as (paragraph & <- & Hp).
  unfold paragraph_elements in Hin. apply in_app_or in Hin as [Hin | Hin].
  - unfold text_element in Hin.
    destruct (Str.truthy _); [|done]. by destruct Hin as [[=] | []].
  - unfold image_element, recognized_image in Hin.
    destruct (head _) as [p|] eqn:Hhead; [|done].
    destruct Hin as [[= ->] | []].
    apply first_resolved_split in Hhead as (skipped & anchor & rest & H1 & H2 & H3).
    by exists paragraph, skipped, anchor, rest.
Qed.

Lemma paragraph_elements_one_image rel_to_image images paragraph :
  (count_images (paragraph_elements rel_to_image images paragraph) ≤ 1)%nat.
Proof.
  unfold count_images, paragraph_elements, text_element, image_element.
  destruct (Str.truthy _), (recognized_image _ _ _); simpl; lia.
Qed.

Lemma count_images_rounds rel_to_image images paragraphs :
  (count_images (concat (List.map (paragraph_elements rel_to_image images) paragraphs))
   ≤ length paragraphs)%nat.
Proof.
  induction paragraphs as [|p ps IH]; simpl; [done |].
  unfold count_images in *. rewrite List.filter_app, length_app.
  pose proof (paragraph_elements_one_image rel_to_image images p) as Hp.
  unfold count_images in Hp. lia.
Qed.

(** C5, as the code has it. The sequence returned by
    [parse_docx_structure] is made of one round for each paragraph of the
    traversal, in order. On either strategy a round adds the text element
    of the paragraph and then at most one [Image]: that of the first anchor
    of the paragraph that resolves, whatever anchors follow it, and none
    when no anchor resolves. So every [Image] of the sequence is that of
    the first resolving anchor of some paragraph of the traversal, and
    there are no more [Image] elements than paragraphs. The anchors after
    the first resolving one add nothing in the round of their paragraph;
    nothing is said of the round of another paragraph that holds them too
    (a paragraph nested in a text box). *)
Theorem C5_one_image_per_paragraph
    (fromstring : bytes → result ET.Element) (HAS_DOCX : bool)
    (Document : zipfile → result unit) (z : zipfile)
    (elements : list element) (images : gmap str bytes) (root : ET.Element) :
  parse_docx_structure fromstring HAS_DOCX Document z = Ok (elements, images) →
  parsed fromstring z document_part = Ok root →
  elements
  = concat (List.map
              (λ paragraph,
                 text_element paragraph
                 ++ image_element (fallback_relationships fromstring z) images
                                  paragraph)
              (ET.findall root w_p))
  ∧ (∀ image_path,
       In (Image image_path) elements →
       ∃ paragraph skipped anchor rest,
         In paragraph (ET.findall root w_p)
         ∧ ET.findall paragraph w_drawing = skipped ++ anchor :: rest
         ∧ Forall (λ d, resolves (fallback_relationships fromstring z) images d
                        = None) skipped
         ∧ resolves (fallback_relationships fromstring z) images anchor
           = Some image_path)
  ∧ (count_images elements ≤ length (ET.findall root w_p))%nat
  ∧ (∀ rel_to_image images' elements' paragraph,
       primary_paragraph rel_to_image images' elements' paragraph
       = elements' ++ text_element paragraph
           ++ image_element rel_to_image images' paragraph
       ∧ fallback_paragraph rel_to_image images' elements' paragraph
         = elements' ++ text_element paragraph
             ++ image_element rel_to_image images' paragraph
       ∧ (count_images (text_element paragraph
                        ++ image_element rel_to_image images' paragraph) ≤ 1)%nat
       ∧ (∀ skipped anchor rest image_path,
            ET.findall paragraph w_drawing = skipped ++ anchor :: rest →
            Forall (λ d, resolves rel_to_image images' d = None) skipped →
            resolves rel_to_image images' anchor = Some image_path →
            image_element rel_to_image images' paragraph = [Image image_path])
       ∧ (Forall (λ d, resolves rel_to_image images' d = None)
                 (ET.findall paragraph w_drawing) →
          image_element rel_to_image images' paragraph = [])).
Proof.
  intros Hparse Hroot.
  apply parse_docx_structure_inv in Hparse as (-> & root' & Hroot' & ->).
  rewrite Hroot in Hroot'. injection Hroot' as <-.
  split; [done |]. split; [|split].
  - intros image_path. apply image_elements_from_first_resolved.
  - apply count_images_rounds.
  - intros rel_to_image images' elements' paragraph.
    split; [by rewrite primary_paragraph_fallback, fallback_paragraph_spec |].
    split; [apply fallback_paragraph_spec |].
    split; [apply paragraph_elements_one_image |]. split.
    + intros skipped anchor rest image_path Hsplit Hskipped Hanchor.
      unfold image_element, recognized_image.
      rewrite Hsplit, first_resolved_skip by done. simpl.
      by rewrite Hanchor.
    + intros Hnone. unfold image_element, recognized_image.
      rewrite <- (app_nil_r (ET.findall paragraph w_drawing)).
      by rewrite first_resolved_skip.
Qed.

Lemma C5_witness :
  [Text (u8 "Intro"); Text (u8 "Figure 1"); Image (u8 "word/media/A.png");
   Text (u8 "End")]
  = concat (List.map
              (λ paragraph,
                 text_element paragraph
                 ++ image_element
                      (fallback_relationships (Fixtures.fromstring Fixtures.trees)
                                              Fixtures.docx_caption)
                      (extract_images_from_docx Fixtures.docx_caption) paragraph)
              (ET.findall Fixtures.caption_doc w_p))
  ∧ image_element
      (fallback_relationships (Fixtures.fromstring Fixtures.trees)
                              Fixtures.docx_caption)
      (extract_images_from_docx Fixtures.docx_caption)
      Fixtures.caption_paragraph
    = [Image (u8 "word/media/A.png")].
Proof.
  destruct (C5_one_image_per_paragraph
              (Fixtures.fromstring Fixtures.trees) true Fixtures.opens
              Fixtures.docx_caption
              [Text (u8 "Intro"); Text (u8 "Figure 1");
               Image (u8 "word/media/A.png"); Text (u8 "End")]
              (extract_images_from_docx Fixtures.docx_caption)
              Fixtures.caption_doc)
    as (Hrounds & _ & _ & Hround).
  - vm_compute. reflexivity.
  - vm_compute. reflexivity.
  - split; [exact Hrounds |].
    destruct (Hround
                (fallback_relationships (Fixtures.fromstring Fixtures.trees)
                                        Fixtures.docx_caption)
                (extract_images_from_docx Fixtures.docx_caption)
                [] Fixtures.caption_paragraph) as (_ & _ & _ & Hfirst & _).
    apply (Hfirst [Fixtures.drawing "rId9"] (Fixtures.drawing "rId1")
                  [Fixtures.drawing "rId2"]).
    + vm_compute. reflexivity.
    + repeat constructor.
    + vm_compute. reflexivity.
Defined.

(** C5, as the specification has it, fails. The paragraph of
    [docx_textbox] has a caption, the anchor of image A and a text box
    whose paragraph has the anchor of image B. In the round of the outer
    paragraph the anchor of A is recognized and the anchor of B is one of
    the anchors after it; yet the sequence holds an [Image] for B, added in
    the round of the paragraph of the text box. *)
Lemma C5_counterexample :
  parse_docx_structure (Fixtures.fromstring Fixtures.trees_textbox) true
                       Fixtures.opens Fixtures.docx_textbox
  = Ok ([Text (u8 "Cap"); Image (u8 "word/media/A.png");
         Image (u8 "word/media/B.png")],
        extract_images_from_docx Fixtures.docx_textbox)
  ∧ ¬ later_anchors_emit_nothing
        (fallback_relationships (Fixtures.fromstring Fixtures.trees_textbox)
                                Fixtures.docx_textbox)
        (extract_images_from_docx Fixtures.docx_textbox)
        Fixtures.picture_and_textbox_doc
        [Text (u8 "Cap"); Image (u8 "word/media/A.png");
         Image (u8 "word/media/B.png")].
Proof.
  split; [vm_compute; reflexivity |].
  intros Hclaim.
  apply (Hclaim Fixtures.picture_and_textbox []
                (Fixtures.drawing "rId1")
                [Fixtures.textbox_drawing [Fixtures.paragraph [Fixtures.drawing_run "rId2"]];
                 Fixtures.drawing "rId2"]
                (Fixtures.drawing "rId2") (u8 "word/media/B.png")).
  - vm_compute. left. reflexivity.
  - vm_compute. reflexivity.
  - constructor.
  - vm_compute. eauto.
  - right. left. reflexivity.
  - vm_compute. reflexivity.
  - right. right. left. reflexivity.
Qed.

(** With an empty Relationship Table the paragraphs give their text
    elements only. *)
Lemma fallback_relationships_unreadable
    (fromstring : bytes → result ET.Element) (z : zipfile) :
  (zip_lookup z rels_part = None
   ∨ ∃ rels_xml e, zip_lookup z rels_part = Some rels_xml
                   ∧ fromstring rels_xml = Raise e) →
  fallback_relationships fromstring z = ∅.
Proof.
  intros Hrels. unfold fallback_relationships, zip_read.
  destruct Hrels as [-> | (rels_xml & e & -> & Hbad)]; simpl; [done |].
  by rewrite Hbad.
Qed.

Lemma parse_docx_structure_empty_table
    (fromstring : bytes → result ET.Element) (HAS_DOCX : bool)
    (Document : zipfile → result unit) (z : zipfile) (root : ET.Element) :
  fallback_relationships fromstring z = ∅ →
  parsed fromstring z document_part = Ok root →
  parse_docx_structure fromstring HAS_DOCX Document z
  = Ok (concat (List.map text_element (ET.findall root w_p)),
        extract_images_from_docx z).
Proof.
  intros Hempty Hroot.
  rewrite parse_docx_structure_spec, Hroot, Hempty. simpl.
  rewrite (map_ext _ text_element); [done |].
  intros p. unfold paragraph_elements.
  by rewrite image_element_empty, app_nil_r.
Qed.

(** C6. When the relationships part is missing or cannot be parsed, and
    the main part can, the extractor returns: the Relationship Table is
    empty and the sequence is made of the text elements of the paragraphs,
    in document order. *)
Theorem C6_relationships_part_not_fatal
    (fromstring : bytes → result ET.Element) (HAS_DOCX : bool)
    (Document : zipfile → result unit) (z : zipfile) (root : ET.Element) :
  (zip_lookup z rels_part = None
   ∨ ∃ rels_xml e, zip_lookup z rels_part = Some rels_xml
                   ∧ fromstring rels_xml = Raise e) →
  parsed fromstring z document_part = Ok root →
  fallback_relationships fromstring z = ∅
  ∧ parse_docx_structure fromstring HAS_DOCX Document z
    = Ok (concat (List.map text_element (ET.findall root w_p)),
          extract_images_from_docx z).
Proof.
  intros Hrels Hroot.
  pose proof (fallback_relationships_unreadable fromstring z Hrels) as Hempty.
  split; [done |].
  by apply parse_docx_structure_empty_table.
Qed.

Lemma C6_witness :
  parse_docx_structure (Fixtures.fromstring Fixtures.trees) true Fixtures.opens
                       Fixtures.docx_no_rels
  = Ok ([Text (u8 "Intro"); Text (u8 "Figure 1"); Text (u8 "End")],
        extract_images_from_docx Fixtures.docx_no_rels)
  ∧ parse_docx_structure (Fixtures.fromstring Fixtures.trees) true Fixtures.opens
                         Fixtures.docx_bad_rels
    = Ok ([Text (u8 "Intro"); Text (u8 "Figure 1"); Text (u8 "End")],
          extract_images_from_docx Fixtures.docx_bad_rels).
Proof.
  split.
  - refine (proj2 (C6_relationships_part_not_fatal
                     (Fixtures.fromstring Fixtures.trees) true Fixtures.opens
                     Fixtures.docx_no_rels Fixtures.caption_doc _ _)).
    + left. vm_compute. reflexivity.
    + vm_compute. reflexivity.
  - refine (proj2 (C6_relationships_part_not_fatal
                     (Fixtures.fromstring Fixtures.trees) true Fixtures.opens
                     Fixtures.docx_bad_rels Fixtures.caption_doc _ _)).
    + right. exists (Fixtures.part "not xml"), ParseError.
      split; vm_compute; reflexivity.
    + vm_compute. reflexivity.
Defined.

(** C8. When the primary strategy and the fallback strategy both return on
    an archive, they return the same sequence of elements, with the same
    media store. *)
Theorem C8_strategies_agree
    (fromstring : bytes → result ET.Element)
    (Document : zipfile → result unit) (z : zipfile)
    (elements1 elements2 : list element) :
  primary_block fromstring Document z (extract_images_from_docx z) [] = Ok elements1 →
  fallback_block fromstring z (extract_images_from_docx z) [] = Ok elements2 →
  elements1 = elements2
  ∧ parse_docx_structure fromstring true Document z
    = Ok (elements1, extract_images_from_docx z)
  ∧ parse_docx_structure fromstring false Document z
    = Ok (elements2, extract_images_from_docx z).
Proof.
  intros Hprimary Hfallback.
  pose proof (primary_block_fallback _ _ _ _ _ _ Hprimary) as Hsame.
  rewrite Hfallback in Hsame. injection Hsame as ->.
  unfold parse_docx_structure. rewrite Hprimary, Hfallback. done.
Qed.

Lemma C8_witness :
  [Text (u8 "Intro"); Text (u8 "Figure 1"); Image (u8 "word/media/A.png");
   Text (u8 "End")]
  = [Text (u8 "Intro"); Text (u8 "Figure 1"); Image (u8 "word/media/A.png");
     Text (u8 "End")]
  ∧ parse_docx_structure (Fixtures.fromstring Fixtures.trees) true Fixtures.opens
                         Fixtures.docx_caption
    = Ok ([Text (u8 "Intro"); Text (u8 "Figure 1"); Image (u8 "word/media/A.png");
           Text (u8 "End")],
          extract_images_from_docx Fixtures.docx_caption)
  ∧ parse_docx_structure (Fixtures.fromstring Fixtures.trees) false Fixtures.opens
                         Fixtures.docx_caption
    = Ok ([Text (u8 "Intro"); Text (u8 "Figure 1"); Image (u8 "word/media/A.png");
           Text (u8 "End")],
          extract_images_from_docx Fixtures.docx_caption).
Proof.
  apply (C8_strategies_agree (Fixtures.fromstring Fixtures.trees) Fixtures.opens
                             Fixtures.docx_caption);
    vm_compute; reflexivity.
Defined.

(** ** The loop of the renderer *)

Section RendererFacts.

Variable World : Type.
Variable describe : World → bytes → str → PyVal * World.

Lemma render_element_count images w result_lines image_count e :
  (render_element World describe images (w, result_lines, image_count) e).2
  = (image_count + count_images [e])%nat.
Proof.
  unfold count_images.
  destruct e as [content|content]; simpl; [lia |].
  destruct (images !! content) as [data|]; [|simpl; lia].
  destruct (describe w data (Path_name content)); simpl; lia.
Qed.

Lemma render_element_extends images w result_lines image_count e :
  ∃ block,
    (render_element World describe images (w, result_lines, image_count) e).1.2
    = result_lines ++ block.
Proof.
  destruct e as [content|content]; simpl; [by eexists |].
  destruct (images !! content) as [data|]; [|by eexists].
  destruct (describe w data (Path_name content)); by eexists.
Qed.

Lemma count_images_app els1 els2 :
  count_images (els1 ++ els2) = (count_images els1 + count_images els2)%nat.
Proof. unfold count_images. by rewrite List.filter_app, length_app. Qed.

Lemma render_loop_count images elements w result_lines image_count :
  (fold_left (render_element World describe images) elements
             (w, result_lines, image_count)).2
  = (image_count + count_images elements)%nat.
Proof.
  revert w result_lines image_count.
  induction elements as [|e els IH]; intros w result_lines image_count;
    cbn [fold_left].
  - unfold count_images. simpl. lia.
  - pose proof (render_element_count images w result_lines image_count e) as He.
    destruct (render_element _ _ _ _ e) as [[w' lines'] count'].
    rewrite IH. simpl in He. rewrite He.
    change (e :: els) with ([e] ++ els). rewrite count_images_app. lia.
Qed.

Lemma render_loop_extends images elements w result_lines image_count :
  ∃ added,
    (fold_left (render_element World describe images) elements
               (w, result_lines, image_count)).1.2
    = result_lines ++ added.
Proof.
  revert w result_lines image_count.
  induction elements as [|e els IH]; intros w result_lines image_count;
    cbn [fold_left].
  - exists []. by rewrite app_nil_r.
  - destruct (render_element_extends images w result_lines image_count e)
      as [block Hblock].
    destruct (render_element _ _ _ _ e) as [[w' lines'] count'].
    destruct (IH w' lines' count') as [added Hadded].
    simpl in Hblock. subst lines'.
    exists (block ++ added). by rewrite Hadded, app_assoc.
Qed.

(** The block an [Image] element adds carries the counter after the
    increment. *)
Lemma render_element_image images w result_lines image_count content :
  ∃ w' rest,
    render_element World describe images (w, result_lines, image_count) (Image content)
    = (w', result_lines ++ rest, S image_count)
    ∧ ((∃ data description,
          images !! content = Some data
          ∧ rest = [PStr (image_label (S image_count) (Path_name content));
                    description; PStr []])
       ∨ (images !! content = None ∧ w' = w
          ∧ rest = [PStr (not_found_label (S image_count) (Path_name content));
                    PStr []])).
Proof.
  simpl. destruct (images !! content) as [data|].
  - destruct (describe w data (Path_name content)) as [description w'].
    exists w'. eexists. split; [done |]. left. eauto.
  - exists w. eexists. split; [done |]. right. eauto.
Qed.

(** With a provider whose answer does not depend on the world, neither do
    the lines. *)
Lemma render_loop_deterministic images elements w1 w2 result_lines image_count :
  (∀ w w' data name, (describe w data name).1 = (describe w' data name).1) →
  (fold_left (render_element World describe images) elements
             (w1, result_lines, image_count)).1.2
  = (fold_left (render_element World describe images) elements
               (w2, result_lines, image_count)).1.2.
Proof.
  intros Hdet. revert w1 w2 result_lines image_count.
  induction elements as [|e els IH]; intros w1 w2 result_lines image_count;
    simpl; [done |].
  destruct e as [content|content]; simpl; [apply IH |].
  destruct (images !! content) as [data|]; [|apply IH].
  pose proof (Hdet w1 w2 data (Path_name content)) as Hd.
  destruct (describe w1 data (Path_name content)) as [d1 w1'].
  destruct (describe w2 data (Path_name content)) as [d2 w2'].
  simpl in Hd. subst d2. apply IH.
Qed.

(** Text elements alone: their lines, and the world is left as it was. *)
Lemma render_loop_texts images texts w result_lines image_count :
  fold_left (render_element World describe images) (List.map Text texts)
            (w, result_lines, image_count)
  = (w, result_lines ++ List.map PStr (text_lines texts), image_count).
Proof.
  revert result_lines.
  induction texts as [|t ts IH]; intros result_lines; simpl.
  - by rewrite app_nil_r.
  - rewrite IH. unfold text_lines. simpl. by rewrite <- app_assoc.
Qed.

Lemma py_join_strings sep lines :
  py_join sep (List.map PStr lines) = Ok (Str.join sep lines).
Proof.
  unfold py_join.
  assert (py_join_items (List.map PStr lines) = Ok lines) as ->; [|done].
  induction lines as [|l ls IH]; simpl; [done |]. by rewrite IH.
Qed.

(** When every [Image] element is a key of the media store, lines 279-281
    are never run. *)
Lemma render_loop_otherwise otherwise images elements st :
  Forall (image_present images) elements →
  fold_left (render_element_otherwise World describe otherwise images) elements st
  = fold_left (render_element World describe images) elements st.
Proof.
  intros Hpresent. revert st.
  induction Hpresent as [|e els He _ IH]; intros st; simpl; [done |].
  rewrite IH. f_equal.
  destruct st as [[w result_lines] image_count].
  destruct e as [content|content]; simpl; [done |].
  simpl in He. destruct He as [data ->]. done.
Qed.

End RendererFacts.

(** ** Properties of the renderer *)

(** C9. With a description provider whose answer depends only on the image
    and its name, two runs of [convert_docx_to_txt] on the same archive,
    from any two states of the world, leave the same output. *)
Theorem C9_conversion_deterministic
    (World : Type) (describe : World → bytes → str → PyVal * World)
    (fromstring : bytes → result ET.Element) (HAS_DOCX : bool)
    (Document : zipfile → result unit) (z : zipfile) (w1 w2 : World) :
  (∀ w w' data name, (describe w data name).1 = (describe w' data name).1) →
  (convert_docx_to_txt World describe fromstring HAS_DOCX Document w1 z).1
  = (convert_docx_to_txt World describe fromstring HAS_DOCX Document w2 z).1.
Proof.
  intros Hdet. unfold convert_docx_to_txt.
  destruct (parse_docx_structure fromstring HAS_DOCX Document z)
    as [[elements images]|e]; [|done].
  unfold render. destruct elements as [|e els]; [done |].
  unfold render_elements.
  pose proof (render_loop_deterministic World describe images (e :: els) w1 w2 [] 0 Hdet)
    as Hlines.
  destruct (fold_left _ (e :: els) (w1, _, _)) as [[w1' lines1] count1].
  destruct (fold_left _ (e :: els) (w2, _, _)) as [[w2' lines2] count2].
  simpl in Hlines. subst lines2.
  by destruct (py_join nl lines1).
Qed.

Lemma C9_witness :
  (convert_docx_to_txt nat (Fixtures.counting_stub "<desc>")
     (Fixtures.fromstring Fixtures.trees) true Fixtures.opens 0%nat Fixtures.docx_A).1
  = (convert_docx_to_txt nat (Fixtures.counting_stub "<desc>")
       (Fixtures.fromstring Fixtures.trees) true Fixtures.opens 1%nat Fixtures.docx_A).1.
Proof.
  apply (C9_conversion_deterministic nat (Fixtures.counting_stub "<desc>")).
  intros w w' data name. reflexivity.
Defined.

(** ** The media-store invariant *)

Lemma parse_docx_structure_present fromstring HAS_DOCX Document z elements images :
  parse_docx_structure fromstring HAS_DOCX Document z = Ok (elements, images) →
  Forall (image_present images) elements.
Proof.
  intros Hparse.
  apply parse_docx_structure_inv in Hparse as (_ & root & _ & ->).
  induction (ET.findall root w_p) as [|p ps IH]; simpl; [constructor |].
  apply Forall_app. split; [apply paragraph_elements_present | apply IH].
Qed.

(** C10. Every [Image] element returned by [parse_docx_structure], on
    either strategy, has its path among the keys of the returned media
    store; so the renderer does the same whatever stands in place of its
    "not found" branch. *)
Theorem C10_image_paths_in_media_store
    (fromstring : bytes → result ET.Element) (HAS_DOCX : bool)
    (Document : zipfile → result unit) (z : zipfile)
    (elements : list element) (images : gmap str bytes) :
  parse_docx_structure fromstring HAS_DOCX Document z = Ok (elements, images) →
  Forall (image_present images) elements
  ∧ ∀ (World : Type) (describe : World → bytes → str → PyVal * World)
      (otherwise : World * list PyVal * nat → str → World * list PyVal * nat)
      (st : World * list PyVal * nat),
      fold_left (render_element_otherwise World describe otherwise images) elements st
      = fold_left (render_element World describe images) elements st.
Proof.
  intros Hparse.
  pose proof (parse_docx_structure_present _ _ _ _ _ _ Hparse) as Hpresent.
  split; [done |].
  intros World describe otherwise st. by apply render_loop_otherwise.
Qed.

Lemma C10_witness :
  Forall (image_present (extract_images_from_docx Fixtures.docx_caption))
         [Text (u8 "Intro"); Text (u8 "Figure 1"); Image (u8 "word/media/A.png");
          Text (u8 "End")].
Proof.
  refine (proj1 (C10_image_paths_in_media_store
                   (Fixtures.fromstring Fixtures.trees) false Fixtures.opens
                   Fixtures.docx_caption _ _ _)).
  vm_compute. reflexivity.
Defined.

(** ** The end-to-end scenario *)

(** C3, as the code has it. When the extractor returns the title, image A
    and the body text, and the provider answers [<desc>], the output file
    holds the title, an empty line, the block of the image under the label
    of the source, [ИЗОБРАЖЕНИЕ 1: A.png], the description, an empty line
    and the body text followed by one line feed. *)
Theorem C3_title_image_body
    (World : Type) (describe : World → bytes → str → PyVal * World)
    (fromstring : bytes → result ET.Element) (HAS_DOCX : bool)
    (Document : zipfile → result unit) (z : zipfile) (w : World)
    (image_path : str) (images : gmap str bytes) :
  parse_docx_structure fromstring HAS_DOCX Document z
    = Ok ([Text (u8 "Title"); Image image_path; Text (u8 "Body text")], images) →
  Path_name image_path = u8 "A.png" →
  (∀ w data name, (describe w data name).1 = PStr (u8 "<desc>")) →
  (convert_docx_to_txt World describe fromstring HAS_DOCX Document w z).1
  = {| file := Some (u8 "Title" ++ nl ++ nl ++ nl
                     ++ u8 "[ИЗОБРАЖЕНИЕ 1: A.png]" ++ nl
                     ++ u8 "<desc>" ++ nl ++ nl
                     ++ u8 "Body text" ++ nl);
       status := Ok tt |}.
Proof.
  intros Hparse Hname Hdesc.
  pose proof (parse_docx_structure_present _ _ _ _ _ _ Hparse) as Hpresent.
  unfold convert_docx_to_txt. rewrite Hparse.
  inversion Hpresent as [|e1 els1 _ Hrest]; subst.
  inversion Hrest as [|e2 els2 Himage _]; subst.
  simpl in Himage. destruct Himage as [data Hdata].
  unfold render, render_elements. cbn [fold_left render_element].
  rewrite Hdata, Hname.
  specialize (Hdesc w data (u8 "A.png")).
  destruct (describe w data (u8 "A.png")) as [description w'].
  simpl in Hdesc. subst description.
  vm_compute. reflexivity.
Qed.

Lemma C3_witness :
  (convert_docx_to_txt unit (Fixtures.stub "<desc>")
     (Fixtures.fromstring Fixtures.trees) true Fixtures.opens tt Fixtures.docx_A).1
  = {| file := Some (u8 "Title" ++ nl ++ nl ++ nl
                     ++ u8 "[ИЗОБРАЖЕНИЕ 1: A.png]" ++ nl
                     ++ u8 "<desc>" ++ nl ++ nl
                     ++ u8 "Body text" ++ nl);
       status := Ok tt |}.
Proof.
  apply (C3_title_image_body unit (Fixtures.stub "<desc>")
           (Fixtures.fromstring Fixtures.trees) true Fixtures.opens Fixtures.docx_A tt
           (u8 "word/media/A.png") (extract_images_from_docx Fixtures.docx_A)).
  - vm_compute. reflexivity.
  - vm_compute. reflexivity.
  - intros w data name. reflexivity.
Defined.

(** C3, as the specification has it, fails on the fixture: the file is
    neither the text of the specification, nor that text with the label of
    the source in place of [IMAGE]: it ends with one line feed, not two. *)
Lemma C3_counterexample :
  file (convert_docx_to_txt unit (Fixtures.stub "<desc>")
          (Fixtures.fromstring Fixtures.trees) true Fixtures.opens tt
          Fixtures.docx_A).1
  ≠ Some (u8 "Title" ++ nl ++ nl ++ nl ++ u8 "[IMAGE 1: A.png]" ++ nl
          ++ u8 "<desc>" ++ nl ++ nl ++ u8 "Body text" ++ nl ++ nl)
  ∧ file (convert_docx_to_txt unit (Fixtures.stub "<desc>")
            (Fixtures.fromstring Fixtures.trees) true Fixtures.opens tt
            Fixtures.docx_A).1
    ≠ Some (u8 "Title" ++ nl ++ nl ++ nl ++ u8 "[ИЗОБРАЖЕНИЕ 1: A.png]" ++ nl
            ++ u8 "<desc>" ++ nl ++ nl ++ u8 "Body text" ++ nl ++ nl).
Proof.
  split; vm_compute; intros H; discriminate H.
Qed.

(** ** Anchors that do not resolve *)

Lemma text_elements_texts paragraphs :
  concat (List.map text_element paragraphs)
  = List.map Text (nonempty_texts paragraphs).
Proof.
  unfold nonempty_texts.
  induction paragraphs as [|p ps IH]; simpl; [done |].
  unfold text_element at 1.
  destruct (Str.truthy (paragraph_text p)); simpl; by rewrite IH.
Qed.

Lemma zip_lookup_listed (z : zipfile) (name : str) :
  In name (namelist z) → is_Some (zip_lookup z name).
Proof.
  induction z as [|[n d] rest IH]; simpl; [done |].
  intros [-> | Hin].
  - destruct (zip_lookup rest name); [eauto |].
    rewrite bool_decide_eq_true_2 by done. eauto.
  - destruct (IH Hin) as [d' ->]. eauto.
Qed.

(** C2, as the code has it. In an archive without a relationships part
    whose main part parses, the extractor returns the non-empty trimmed
    texts of the paragraphs and nothing else, and the conversion writes
    these texts, each followed by an empty line, without a call of the
    provider: no block of any kind stands for the drawing anchors. In
    general an anchor whose relationship-id is not in the Relationship
    Table, or whose path is not in the Media Store, does not resolve and
    is passed over by the loop over the drawings on both strategies, and
    every [Image] of a returned sequence is the path of an anchor that
    resolves. In the renderer an [Image] element whose path is not in the
    media store it is given gets the "not found" block without a call of
    the provider, and one whose path is in the store gets the block with
    the description of the provider. *)
Theorem C2_unresolved_anchors_are_dropped
    (World : Type) (describe : World → bytes → str → PyVal * World)
    (fromstring : bytes → result ET.Element) (HAS_DOCX : bool)
    (Document : zipfile → result unit) (z : zipfile) (root : ET.Element)
    (w : World) :
  zip_lookup z rels_part = None →
  parsed fromstring z document_part = Ok root →
  parse_docx_structure fromstring HAS_DOCX Document z
    = Ok (List.map Text (nonempty_texts (ET.findall root w_p)),
          extract_images_from_docx z)
  ∧ convert_docx_to_txt World describe fromstring HAS_DOCX Document w z
    = ({| file := match nonempty_texts (ET.findall root w_p) with
                  | [] => None
                  | texts => Some (Str.join nl (text_lines texts))
                  end;
          status := Ok tt |}, w)
  ∧ (∀ rel_to_image images drawing blip r_embed,
       ET.find drawing a_blip = Some blip →
       ET.get blip r_embed_key = Some r_embed →
       (rel_to_image !! Some r_embed = None
        ∨ ∃ image_path, rel_to_image !! Some r_embed = Some image_path
                        ∧ images !! image_path = None) →
       resolves rel_to_image images drawing = None
       ∧ ∀ rest elements text_parts,
           primary_drawings rel_to_image images (drawing :: rest) elements text_parts
           = primary_drawings rel_to_image images rest elements text_parts
           ∧ fallback_drawings rel_to_image images (drawing :: rest) elements
                               text_parts
             = fallback_drawings rel_to_image images rest elements text_parts)
  ∧ (∀ images w' result_lines image_count content,
       images !! content = None →
       render_element World describe images (w', result_lines, image_count)
                      (Image content)
       = (w',
          result_lines
            ++ [PStr (nl ++ u8 "[ИЗОБРАЖЕНИЕ " ++ Str.of_nat (S image_count)
                      ++ u8 ": " ++ Path_name content ++ u8 " - не найдено]");
                PStr []],
          S image_count))
  ∧ (∀ images w' result_lines image_count content data,
       images !! content = Some data →
       render_element World describe images (w', result_lines, image_count)
                      (Image content)
       = ((describe w' data (Path_name content)).2,
          result_lines
            ++ [PStr (nl ++ u8 "[ИЗОБРАЖЕНИЕ " ++ Str.of_nat (S image_count)
                      ++ u8 ": " ++ Path_name content ++ u8 "]");
                (describe w' data (Path_name content)).1;
                PStr []],
          S image_count))
  ∧ (∀ z' elements' images' root' image_path,
       parse_docx_structure fromstring HAS_DOCX Document z'
         = Ok (elements', images') →
       parsed fromstring z' document_part = Ok root' →
       In (Image image_path) elements' →
       ∃ paragraph anchor,
         In paragraph (ET.findall root' w_p)
         ∧ In anchor (ET.findall paragraph w_drawing)
         ∧ resolves (fallback_relationships fromstring z') images' anchor
           = Some image_path).
Proof.
  intros Hrels Hroot.
  pose proof (parse_docx_structure_empty_table fromstring HAS_DOCX Document z root
                (fallback_relationships_unreadable fromstring z (or_introl Hrels))
                Hroot) as Hparse.
  rewrite text_elements_texts in Hparse.
  split; [done |]. split; [|split; [|split; [|split]]].
  - unfold convert_docx_to_txt. rewrite Hparse. unfold render.
    destruct (nonempty_texts (ET.findall root w_p)) as [|t ts]; [done |].
    change (Text t :: List.map Text ts) with (List.map Text (t :: ts)).
    unfold render_elements. rewrite render_loop_texts, app_nil_l.
    by rewrite py_join_strings.
  - intros rel_to_image images drawing blip r_embed Hblip Hembed Hmissing.
    assert (resolves rel_to_image images drawing = None) as Hnone.
    { unfold resolves. rewrite Hblip. simpl. rewrite Hembed. simpl.
      destruct (Str.truthy r_embed); [|done].
      destruct Hmissing as [-> | (image_path & -> & Himage)]; [done |].
      simpl. by rewrite Himage. }
    split; [done |]. intros rest elements text_parts.
    by rewrite primary_drawings_fallback, fallback_drawings_cons, Hnone.
  - intros images w' result_lines image_count content Hnone.
    simpl. by rewrite Hnone.
  - intros images w' result_lines image_count content data Hdata.
    simpl. rewrite Hdata.
    by destruct (describe w' data (Path_name content)).
  - intros z' elements' images' root' image_path Hparse' Hroot' Hin.
    apply parse_docx_structure_inv in Hparse' as (-> & root'' & Hroot'' & ->).
    rewrite Hroot' in Hroot''. injection Hroot'' as <-.
    apply image_elements_from_first_resolved in Hin
      as (paragraph & skipped & anchor & rest & Hp & Hsplit & _ & Hanchor).
    exists paragraph, anchor. split; [done |]. split; [|done].
    rewrite Hsplit. apply in_or_app. right. by left.
Qed.

Lemma C2_witness :
  convert_docx_to_txt nat (Fixtures.counting_stub "<desc>")
    (Fixtures.fromstring Fixtures.trees) true Fixtures.opens 0%nat
    Fixtures.docx_no_rels
  = ({| file := match nonempty_texts (ET.findall Fixtures.caption_doc w_p) with
                | [] => None
                | texts => Some (Str.join nl (text_lines texts))
                end;
        status := Ok tt |}, 0%nat).
Proof.
  refine (proj1 (proj2 (C2_unresolved_anchors_are_dropped
                          nat (Fixtures.counting_stub "<desc>")
                          (Fixtures.fromstring Fixtures.trees) true Fixtures.opens
                          Fixtures.docx_no_rels Fixtures.caption_doc 0%nat _ _)));
    vm_compute; reflexivity.
Defined.

(** C2, as the specification has it, fails. The archive [docx_no_rels] has no
    relationships part and its document has three drawing anchors; the
    output holds the three texts and no "not found" block. In
    [docx_dangling] one anchor has a relationship-id that is in no table
    and another a target that is not in the archive; the output holds the
    only text and no "not found" block. *)
Lemma C2_counterexample :
  zip_lookup Fixtures.docx_no_rels rels_part = None
  ∧ length (ET.findall Fixtures.caption_doc w_drawing) = 3%nat
  ∧ (convert_docx_to_txt unit (Fixtures.stub "<desc>")
       (Fixtures.fromstring Fixtures.trees) true Fixtures.opens tt
       Fixtures.docx_no_rels).1
    = {| file := Some (u8 "Intro" ++ nl ++ nl ++ u8 "Figure 1" ++ nl ++ nl
                       ++ u8 "End" ++ nl);
         status := Ok tt |}
  ∧ ¬ (∃ text,
         file (convert_docx_to_txt unit (Fixtures.stub "<desc>")
                 (Fixtures.fromstring Fixtures.trees) true Fixtures.opens tt
                 Fixtures.docx_no_rels).1 = Some text
         ∧ has_not_found_block text = true)
  ∧ length (ET.findall Fixtures.dangling_doc w_drawing) = 2%nat
  ∧ (convert_docx_to_txt unit (Fixtures.stub "<desc>")
       (Fixtures.fromstring Fixtures.trees) true Fixtures.opens tt
       Fixtures.docx_dangling).1
    = {| file := Some (u8 "Intro" ++ nl); status := Ok tt |}
  ∧ ¬ (∃ text,
         file (convert_docx_to_txt unit (Fixtures.stub "<desc>")
                 (Fixtures.fromstring Fixtures.trees) true Fixtures.opens tt
                 Fixtures.docx_dangling).1 = Some text
         ∧ has_not_found_block text = true).
Proof.
  assert (∀ out : Outcome,
            match file out with
            | Some text => has_not_found_block text
            | None => false
            end = false →
            ¬ (∃ text, file out = Some text ∧ has_not_found_block text = true))
    as Hnone.
  { intros out Hout (text & Hfile & Hblock).
    rewrite Hfile, Hblock in Hout. discriminate Hout. }
  repeat split; try apply Hnone; vm_compute; reflexivity.
Qed.

(** ** The provider boundary *)

Section ProviderFacts.

Variable World : Type.
Variable requests_post : World → Request → result Response * World.
Variable b64encode : bytes → str.
Variable exc_str : exc → str.
Variable OPENROUTER_API_KEY : str.
Variable VISION_MODEL : str.

Abbreviation analyze :=
  (analyze_image_with_api World requests_post b64encode exc_str
                          OPENROUTER_API_KEY VISION_MODEL).
Abbreviation try_block :=
  (analyze_try World requests_post b64encode OPENROUTER_API_KEY VISION_MODEL).

(** Without a credential the answer is a placeholder and no request is
    made. *)
Lemma analyze_without_key w image_data image_name :
  OPENROUTER_API_KEY = [] →
  analyze w image_data image_name
  = (PStr (u8 "[Изображение: " ++ image_name ++ u8 " - API токен не найден]"), w).
Proof. intros Hkey. unfold analyze_image_with_api. by rewrite Hkey. Qed.

(** Whatever is raised inside the [try] becomes a placeholder with the
    name of the image and the message of the exception. *)
Lemma analyze_raise w w' image_data image_name e :
  Str.truthy OPENROUTER_API_KEY = true →
  try_block w image_data image_name = (Raise e, w') →
  analyze w image_data image_name
  = (PStr (u8 "[Изображение: " ++ image_name ++ u8 " - Ошибка анализа: "
           ++ exc_str e ++ u8 "]"), w').
Proof.
  intros Hkey Htry. unfold analyze_image_with_api.
  rewrite Hkey. simpl. by rewrite Htry.
Qed.

(** A failed request, an error status and a body that is not JSON all
    raise inside the [try]. *)
Lemma analyze_try_failures w w' image_data image_name request_result :
  (∀ request, requests_post w request = (request_result, w')) →
  match request_result with
  | Raise e => try_block w image_data image_name = (Raise e, w')
  | Ok response =>
      match raise_for_status response, json response with
      | Raise e, _ => try_block w image_data image_name = (Raise e, w')
      | Ok _, Raise e => try_block w image_data image_name = (Raise e, w')
      | Ok _, Ok res =>
          try_block w image_data image_name = (read_result res image_name, w')
      end
  end.
Proof.
  intros Hpost. unfold analyze_try. rewrite Hpost.
  destruct request_result as [response|e]; [|done].
  simpl.
  destruct (raise_for_status response) as [[]|e]; simpl; [|done].
  by destruct (json response).
Qed.

(** The value returned is a string unless the body decodes and
    [result['choices'][0]['message']['content']] is not one. *)
Lemma analyze_not_str w image_data image_name :
  is_str (analyze w image_data image_name).1 = false →
  ∃ res content,
    (try_block w image_data image_name).1 = Ok content
    ∧ read_result res image_name = Ok content
    ∧ is_str content = false.
Proof.
  unfold analyze_image_with_api, analyze_try.
  destruct (negb (Str.truthy OPENROUTER_API_KEY)); simpl; [done |].
  destruct (requests_post w _) as [[response|e] w']; simpl; [|done].
  destruct (raise_for_status response) as [[]|e]; simpl; [|done].
  destruct (json response) as [res|e]; simpl; [|done].
  destruct (read_result res image_name) as [content|e] eqn:Hread; simpl; [|done].
  intros Hcontent. exists res, content. done.
Qed.

End ProviderFacts.

(** C7, on the code. The provider answers with status 200 and the body
    [{"choices": [{"message": {"content": null}}]}]. Then
    [analyze_image_with_api] returns [None], which is not a string, and the
    conversion of the document with image A raises [TypeError] when it
    joins the lines, after the output file has been opened: the file is
    left empty. *)
Theorem C7_null_content_is_returned :
  (analyze_image_with_api unit (Fixtures.answers (Fixtures.completion PNone))
     Fixtures.no_b64 Fixtures.some_message Fixtures.key Fixtures.model
     tt Fixtures.png_A (u8 "A.png")).1 = PNone
  ∧ (convert_docx_to_txt unit
       (analyze_image_with_api unit (Fixtures.answers (Fixtures.completion PNone))
          Fixtures.no_b64 Fixtures.some_message Fixtures.key Fixtures.model)
       (Fixtures.fromstring Fixtures.trees) true Fixtures.opens tt
       Fixtures.docx_A).1
    = {| file := Some []; status := Raise TypeError |}.
Proof.
  split; vm_compute; reflexivity.
Qed.

(** * Further properties *)

(** ** The media store *)

Lemma zip_lookup_unlisted (z : zipfile) (name : str) :
  ¬ In name (namelist z) → zip_lookup z name = None.
Proof.
  induction z as [|[n d] rest IH]; simpl; [done |].
  intros Hnot. rewrite IH by tauto.
  rewrite bool_decide_eq_false_2; [done |]. tauto.
Qed.

(** The loop of [extract_images_from_docx] over any list of names. *)
Lemma extract_images_loop (z : zipfile) (names : list str)
    (images : gmap str bytes) (name : str) :
  fold_left
    (fun images file_info =>
       if Str.startswith file_info (u8 "word/media/") then
         match zip_lookup z file_info with
         | Some data => <[file_info := data]> images
         | None => images
         end
       else images)
    names images !! name
  = if bool_decide (name ∈ names) && Str.startswith name (u8 "word/media/")
    then match zip_lookup z name with
         | Some data => Some data
         | None => images !! name
         end
    else images !! name.
Proof.
  revert images.
  induction names as [|n ns IH]; intros images; [done |].
  cbn [fold_left]. rewrite IH. clear IH.
  destruct (decide (n = name)) as [-> | Hne].
  - rewrite (bool_decide_eq_true_2 (name ∈ name :: ns)) by apply list_elem_of_here.
    simpl. destruct (Str.startswith name (u8 "word/media/")) eqn:Hprefix.
    + rewrite andb_true_r.
      destruct (zip_lookup z name) as [data|]; [|by destruct (bool_decide _)].
      rewrite lookup_insert_eq. by destruct (bool_decide _).
    + by rewrite andb_false_r.
  - assert (bool_decide (name ∈ n :: ns) = bool_decide (name ∈ ns)) as ->.
    { apply bool_decide_ext. rewrite elem_of_cons.
      split; [intros [Heq | Hin]; [congruence | done] | by right]. }
    assert ((if Str.startswith n (u8 "word/media/")
             then match zip_lookup z n with
                  | Some data => <[n:=data]> images
                  | None => images
                  end
             else images) !! name = images !! name) as ->; [|done].
    destruct (Str.startswith n _); [|done].
    destruct (zip_lookup z n); [|done]. by rewrite lookup_insert_ne.
Qed.

Lemma extract_images_lookup (z : zipfile) (name : str) :
  extract_images_from_docx z !! name
  = if Str.startswith name (u8 "word/media/") then zip_lookup z name else None.
Proof.
  unfold extract_images_from_docx. rewrite extract_images_loop, lookup_empty.
  destruct (decide (name ∈ namelist z)) as [Hin | Hnot].
  - rewrite bool_decide_eq_true_2 by done. simpl.
    destruct (Str.startswith name _); [|done]. by destruct (zip_lookup z name).
  - rewrite bool_decide_eq_false_2 by done. simpl.
    rewrite zip_lookup_unlisted by (by rewrite <- list_elem_of_In).
    by destruct (Str.startswith name _).
Qed.

(** The media store holds exactly the members whose name begins with
    [word/media/], each with the contents [read] gives for its name (those
    of the last member of that name). *)
Theorem media_store_lookup (z : zipfile) (name : str) :
  extract_images_from_docx z !! name
  = if Str.startswith name (u8 "word/media/")
    then match zip_read z name with
         | Ok data => Some data
         | Raise _ => None
         end
    else None.
Proof.
  rewrite extract_images_lookup. unfold zip_read.
  destruct (Str.startswith name _); [|done]. by destruct (zip_lookup z name).
Qed.

(** Every [Image] element names a member of the archive under
    [word/media/], and the media store holds the contents [read] gives for
    that name. *)
Theorem image_paths_are_media_members
    (fromstring : bytes → result ET.Element) (HAS_DOCX : bool)
    (Document : zipfile → result unit) (z : zipfile)
    (elements : list element) (images : gmap str bytes) (image_path : str) :
  parse_docx_structure fromstring HAS_DOCX Document z = Ok (elements, images) →
  In (Image image_path) elements →
  Str.startswith image_path (u8 "word/media/") = true
  ∧ ∃ data, images !! image_path = Some data ∧ zip_read z image_path = Ok data.
Proof.
  intros Hparse Hin.
  pose proof (parse_docx_structure_present _ _ _ _ _ _ Hparse) as Hpresent.
  apply parse_docx_structure_inv in Hparse as [-> _].
  rewrite Forall_forall in Hpresent.
  apply Hpresent in Hin as [data Hdata]. simpl in Hdata.
  pose proof Hdata as Hlookup. rewrite extract_images_lookup in Hlookup.
  destruct (Str.startswith image_path _); [|done].
  split; [done |]. exists data. split; [done |].
  unfold zip_read. by rewrite Hlookup.
Qed.

Lemma image_paths_are_media_members_witness :
  Str.startswith (u8 "word/media/A.png") (u8 "word/media/") = true
  ∧ ∃ data,
      extract_images_from_docx Fixtures.docx_caption !! u8 "word/media/A.png"
      = Some data
      ∧ zip_read Fixtures.docx_caption (u8 "word/media/A.png") = Ok data.
Proof.
  apply (image_paths_are_media_members
           (Fixtures.fromstring Fixtures.trees) true Fixtures.opens
           Fixtures.docx_caption
           [Text (u8 "Intro"); Text (u8 "Figure 1"); Image (u8 "word/media/A.png");
            Text (u8 "End")]).
  - vm_compute. reflexivity.
  - right. right. left. reflexivity.
Defined.

(** ** The Relationship Table *)

Lemma startswith_app (a s p : str) :
  Str.startswith (a ++ s) (a ++ p) = Str.startswith s p.
Proof.
  induction a as [|c a IH]; simpl; [by destruct p |].
  by rewrite N.eqb_refl, IH.
Qed.

Lemma rel_to_image_loop_sound (P : option str → str → Prop)
    (rels : list ET.Element) (table : gmap (option str) str) :
  (∀ k p, table !! k = Some p → P k p) →
  (∀ rel target,
     In rel rels →
     default [] (ET.get rel (u8 "Target")) = target →
     Str.startswith target (u8 "media/") = true →
     P (ET.get rel (u8 "Id")) (u8 "word/" ++ target)) →
  ∀ k p,
    fold_left
      (fun rel_to_image rel =>
         let target := default [] (ET.get rel (u8 "Target")) in
         if Str.startswith target (u8 "media/")
         then <[ET.get rel (u8 "Id") := u8 "word/" ++ target]> rel_to_image
         else rel_to_image)
      rels table !! k = Some p →
    P k p.
Proof.
  revert table.
  induction rels as [|rel rels IH]; intros table Htable Hrels k p; [apply Htable |].
  cbn [fold_left]. apply IH.
  - intros k' p'. cbv zeta.
    destruct (Str.startswith _ _) eqn:Hprefix; [|apply Htable].
    destruct (decide (ET.get rel (u8 "Id") = k')) as [<- | Hne].
    + rewrite lookup_insert_eq. intros [= <-].
      by apply Hrels; [left | |].
    + rewrite lookup_insert_ne by done. apply Htable.
  - intros rel' target Hin. apply Hrels. by right.
Qed.

(** Every entry of the Relationship Table comes from a [Relationship]
    element whose [Target] begins with [media/]: the key is its [Id] and the
    path is [word/] followed by the target, so it begins with
    [word/media/].  Relationships with other targets leave no entry. *)
Theorem rel_to_image_entries (rels_root : ET.Element) (k : option str) (p : str) :
  fallback_rel_to_image rels_root !! k = Some p →
  primary_rel_to_image rels_root !! k = Some p
  ∧ Str.startswith p (u8 "word/media/") = true
  ∧ ∃ rel target,
      In rel (ET.findall rels_root r_Relationship)
      ∧ ET.get rel (u8 "Id") = k
      ∧ ET.get rel (u8 "Target") = Some target
      ∧ Str.startswith target (u8 "media/") = true
      ∧ p = u8 "word/" ++ target.
Proof.
  intros Hlookup. split; [done |].
  revert k p Hlookup. unfold fallback_rel_to_image.
  apply rel_to_image_loop_sound; [by intros k p; rewrite lookup_empty |].
  intros rel target Hin Htarget Hprefix. split.
  - change (u8 "word/media/") with (u8 "word/" ++ u8 "media/").
    by rewrite startswith_app.
  - exists rel, target. repeat split; try done.
    unfold default in Htarget.
    destruct (ET.get rel (u8 "Target")) as [t|]; [by subst |].
    subst target. done.
Qed.

Lemma rel_to_image_entries_witness :
  primary_rel_to_image Fixtures.rels_AB !! Some (u8 "rId2")
  = Some (u8 "word/media/B.png")
  ∧ Str.startswith (u8 "word/media/B.png") (u8 "word/media/") = true
  ∧ ∃ rel target,
      In rel (ET.findall Fixtures.rels_AB r_Relationship)
      ∧ ET.get rel (u8 "Id") = Some (u8 "rId2")
      ∧ ET.get rel (u8 "Target") = Some target
      ∧ Str.startswith target (u8 "media/") = true
      ∧ u8 "word/media/B.png" = u8 "word/" ++ target.
Proof.
  apply (rel_to_image_entries Fixtures.rels_AB (Some (u8 "rId2"))
                              (u8 "word/media/B.png")).
  vm_compute. reflexivity.
Defined.

(** ** The traversal of the tree *)

Lemma Element_forall_ind (P : ET.Element → Prop) :
  (∀ t a x cs, Forall P cs → P (ET.mkElement t a x cs)) →
  ∀ e, P e.
Proof.
  intros Hnode. fix IH 1. intros [t a x cs]. apply Hnode.
  revert cs. fix IHcs 1. intros [|c cs]; constructor; [apply IH | apply IHcs].
Qed.

Lemma iter_unfold (e : ET.Element) :
  ET.iter e = e :: concat (List.map ET.iter (ET.children e)).
Proof. by destruct e. Qed.

Lemma in_descendants (e d : ET.Element) :
  In d (concat (List.map ET.iter (ET.children e)))
  ↔ ∃ c, In c (ET.children e) ∧ In d (ET.iter c).
Proof.
  rewrite in_concat. split.
  - intros (l & Hl & Hd). apply in_map_iff in Hl as (c & <- & Hc). eauto.
  - intros (c & Hc & Hd). exists (ET.iter c). split; [|done].
    apply in_map_iff. eauto.
Qed.

(** The descendants of a descendant are descendants. *)
Lemma iter_incl (e d : ET.Element) :
  In d (ET.iter e) → incl (ET.iter d) (ET.iter e).
Proof.
  revert d. induction e as [t a x cs IH] using Element_forall_ind.
  intros d Hd. rewrite iter_unfold in Hd. destruct Hd as [<- | Hd]; [apply incl_refl |].
  apply in_descendants in Hd as (c & Hc & Hd). simpl in Hc.
  rewrite Forall_forall in IH.
  intros y Hy. rewrite iter_unfold. right.
  apply in_descendants. exists c. split; [done |].
  exact (IH c Hc d Hd y Hy).
Qed.

Lemma findall_in (e d : ET.Element) (t : str) :
  In d (ET.findall e t)
  ↔ In d (concat (List.map ET.iter (ET.children e))) ∧ ET.tag d = t.
Proof.
  unfold ET.findall. rewrite filter_In.
  by rewrite bool_decide_eq_true.
Qed.

Lemma findall_descendant (e d : ET.Element) (t t' : str) :
  In d (ET.findall e t) → incl (ET.findall d t') (ET.findall e t').
Proof.
  intros Hd y Hy.
  apply findall_in in Hd as [Hd _]. apply findall_in in Hy as [Hy Htag].
  apply findall_in. split; [|done].
  apply in_descendants in Hd as (c & Hc & Hd).
  apply in_descendants. exists c. split; [done |].
  apply (iter_incl c d Hd). rewrite iter_unfold. by right.
Qed.

(** A paragraph nested in another paragraph (a text box) is visited by the
    loop over the paragraphs on its own as well, while its text runs and
    its drawing anchors also count for the enclosing paragraph. *)
Theorem nested_paragraph_visited_twice (root p q : ET.Element) :
  In p (ET.findall root w_p) →
  In q (ET.findall p w_p) →
  In q (ET.findall root w_p)
  ∧ incl (ET.findall q w_t) (ET.findall p w_t)
  ∧ incl (ET.findall q w_drawing) (ET.findall p w_drawing).
Proof.
  intros Hp Hq. split; [|split].
  - by apply (findall_descendant root p w_p w_p).
  - by apply (findall_descendant p q w_p).
  - by apply (findall_descendant p q w_p).
Qed.

Lemma nested_paragraph_visited_twice_witness :
  In Fixtures.inner_paragraph (ET.findall Fixtures.textbox_doc w_p)
  ∧ incl (ET.findall Fixtures.inner_paragraph w_t)
         (ET.findall Fixtures.textbox_paragraph w_t)
  ∧ incl (ET.findall Fixtures.inner_paragraph w_drawing)
         (ET.findall Fixtures.textbox_paragraph w_drawing).
Proof.
  apply (nested_paragraph_visited_twice Fixtures.textbox_doc
           Fixtures.textbox_paragraph Fixtures.inner_paragraph).
  - vm_compute. left. reflexivity.
  - vm_compute. left. reflexivity.
Defined.

(** ** The extractor as a whole *)

(** Whether python-docx is installed, and whatever its [Document] does with
    the archive, the extractor returns the same result or raises the same
    exception. *)
Theorem parse_docx_structure_without_docx
    (fromstring : bytes → result ET.Element) (HAS_DOCX HAS_DOCX' : bool)
    (Document Document' : zipfile → result unit) (z : zipfile) :
  parse_docx_structure fromstring HAS_DOCX Document z
  = parse_docx_structure fromstring HAS_DOCX' Document' z.
Proof. by rewrite !parse_docx_structure_fallback. Qed.

(** When the main part is missing or does not parse, the extractor raises
    the exception of the fallback ([KeyError] or that of the parser) on
    both strategies, and the conversion raises it without opening the
    output file or calling the provider. *)
Theorem main_part_unreadable_is_fatal
    (World : Type) (describe : World → bytes → str → PyVal * World)
    (fromstring : bytes → result ET.Element) (HAS_DOCX : bool)
    (Document : zipfile → result unit) (z : zipfile) (w : World) (e : exc) :
  parsed fromstring z document_part = Raise e →
  parse_docx_structure fromstring HAS_DOCX Document z = Raise e
  ∧ convert_docx_to_txt World describe fromstring HAS_DOCX Document w z
    = ({| file := None; status := Raise e |}, w).
Proof.
  intros Hroot.
  assert (parse_docx_structure fromstring HAS_DOCX Document z = Raise e) as Hparse.
  { by rewrite parse_docx_structure_spec, Hroot. }
  split; [done |].
  unfold convert_docx_to_txt. by rewrite Hparse.
Qed.

Lemma main_part_unreadable_is_fatal_witness :
  parse_docx_structure (Fixtures.fromstring Fixtures.trees) true Fixtures.opens
    [(rels_part, Fixtures.part "<rels-A>")]
  = Raise (KeyError document_part)
  ∧ convert_docx_to_txt nat (Fixtures.counting_stub "<desc>")
      (Fixtures.fromstring Fixtures.trees) true Fixtures.opens 0%nat
      [(rels_part, Fixtures.part "<rels-A>")]
    = ({| file := None; status := Raise (KeyError document_part) |}, 0%nat).
Proof.
  apply (main_part_unreadable_is_fatal nat (Fixtures.counting_stub "<desc>")
           (Fixtures.fromstring Fixtures.trees) true Fixtures.opens
           [(rels_part, Fixtures.part "<rels-A>")] 0%nat).
  vm_compute. reflexivity.
Defined.

(** The conversion of a sequence of [Text] elements. *)
Lemma convert_texts
    (World : Type) (describe : World → bytes → str → PyVal * World)
    (fromstring : bytes → result ET.Element) (HAS_DOCX : bool)
    (Document : zipfile → result unit) (z : zipfile) (w : World)
    (texts : list str) (images : gmap str bytes) :
  parse_docx_structure fromstring HAS_DOCX Document z
    = Ok (List.map Text texts, images) →
  convert_docx_to_txt World describe fromstring HAS_DOCX Document w z
  = ({| file := match texts with
                | [] => None
                | _ => Some (Str.join nl (text_lines texts))
                end;
        status := Ok tt |}, w).
Proof.
  intros Hparse. unfold convert_docx_to_txt. rewrite Hparse. unfold render.
  destruct texts as [|t ts]; [done |].
  change (Text t :: List.map Text ts) with (List.map Text (t :: ts)).
  unfold render_elements. rewrite render_loop_texts, app_nil_l.
  by rewrite py_join_strings.
Qed.

(** A document without any drawing: the sequence is one [Text] for each
    paragraph whose trimmed text is not empty, in document order, whatever
    the relationships part holds; the output is these texts, each followed
    by an empty line, and the provider is not called. *)
Theorem text_only_document
    (World : Type) (describe : World → bytes → str → PyVal * World)
    (fromstring : bytes → result ET.Element) (HAS_DOCX : bool)
    (Document : zipfile → result unit) (z : zipfile) (root : ET.Element)
    (w : World) :
  parsed fromstring z document_part = Ok root →
  ET.findall root w_drawing = [] →
  parse_docx_structure fromstring HAS_DOCX Document z
    = Ok (List.map Text (nonempty_texts (ET.findall root w_p)),
          extract_images_from_docx z)
  ∧ convert_docx_to_txt World describe fromstring HAS_DOCX Document w z
    = ({| file := match nonempty_texts (ET.findall root w_p) with
                  | [] => None
                  | texts => Some (Str.join nl (text_lines texts))
                  end;
          status := Ok tt |}, w).
Proof.
  intros Hroot Hnone.
  assert (parse_docx_structure fromstring HAS_DOCX Document z
          = Ok (List.map Text (nonempty_texts (ET.findall root w_p)),
                extract_images_from_docx z)) as Hparse.
  { rewrite parse_docx_structure_spec, Hroot. simpl.
    rewrite <- text_elements_texts.
    rewrite (map_ext_in _ text_element); [done |].
    intros p Hp. unfold paragraph_elements, image_element, recognized_image.
    assert (ET.findall p w_drawing = []) as ->; [|by rewrite app_nil_r].
    pose proof (findall_descendant root p w_p w_drawing Hp) as Hincl.
    rewrite Hnone in Hincl.
    destruct (ET.findall p w_drawing) as [|d ds]; [done |].
    destruct (Hincl d). by left. }
  split; [done |].
  rewrite (convert_texts World describe _ _ _ _ w _ _ Hparse).
  by destruct (nonempty_texts _).
Qed.

Lemma text_only_document_witness :
  parse_docx_structure (Fixtures.fromstring Fixtures.more_trees) true Fixtures.opens
    [(document_part, Fixtures.part "<text-only>")]
  = Ok (List.map Text (nonempty_texts (ET.findall Fixtures.text_only_doc w_p)),
        extract_images_from_docx [(document_part, Fixtures.part "<text-only>")])
  ∧ convert_docx_to_txt nat (Fixtures.counting_stub "<desc>")
      (Fixtures.fromstring Fixtures.more_trees) true Fixtures.opens 0%nat
      [(document_part, Fixtures.part "<text-only>")]
    = ({| file := match nonempty_texts (ET.findall Fixtures.text_only_doc w_p) with
                  | [] => None
                  | texts => Some (Str.join nl (text_lines texts))
                  end;
          status := Ok tt |}, 0%nat).
Proof.
  apply (text_only_document nat (Fixtures.counting_stub "<desc>")
           (Fixtures.fromstring Fixtures.more_trees) true Fixtures.opens
           [(document_part, Fixtures.part "<text-only>")]
           Fixtures.text_only_doc 0%nat);
    vm_compute; reflexivity.
Defined.

(** ** The text of a paragraph *)

Lemma lstrip_head (s : str) (c : N) (r : str) :
  Str.lstrip s = c :: r → Str.isspace c = false.
Proof.
  induction s as [|a s IH]; simpl; [done |].
  destruct (Str.isspace a) eqn:Ha; [done |].
  by intros [= <- <-].
Qed.

Lemma lstrip_split (s : str) :
  ∃ ws, s = ws ++ Str.lstrip s ∧ Forall (λ c, Str.isspace c = true) ws.
Proof.
  induction s as [|a s (ws & Hs & Hws)]; simpl.
  - by exists [].
  - destruct (Str.isspace a) eqn:Ha.
    + exists (a :: ws). split; [by rewrite Hs at 1 | by constructor].
    + by exists [].
Qed.

(** [strip] removes white space at both ends and nothing else, and what it
    leaves is empty or begins and ends with a character that is not white
    space. *)
Lemma strip_spec (s : str) :
  ∃ pre post,
    s = pre ++ Str.strip s ++ post
    ∧ Forall (λ c, Str.isspace c = true) pre
    ∧ Forall (λ c, Str.isspace c = true) post
    ∧ (Str.strip s = []
       ∨ (∃ c r, Str.strip s = c :: r ∧ Str.isspace c = false)
         ∧ (∃ r c, Str.strip s = r ++ [c] ∧ Str.isspace c = false)).
Proof.
  unfold Str.strip, Str.rstrip.
  destruct (lstrip_split s) as (pre & Hs & Hpre).
  destruct (lstrip_split (rev (Str.lstrip s))) as (ws & Ht & Hws).
  assert (Str.lstrip s = rev (Str.lstrip (rev (Str.lstrip s))) ++ rev ws) as Hmid.
  { rewrite <- (rev_involutive (Str.lstrip s)) at 1.
    rewrite Ht at 1. by rewrite rev_app_distr. }
  exists pre, (rev ws). split; [|split; [done | split]].
  - by rewrite <- Hmid.
  - by apply Forall_rev.
  - destruct (Str.lstrip (rev (Str.lstrip s))) as [|c r] eqn:Hlast; [by left |].
    right. split.
    + simpl in Hmid |- *.
      destruct (rev r ++ [c]) as [|c' r'] eqn:Hrev.
      { by destruct (rev r). }
      exists c', r'. split; [done |].
      apply (lstrip_head s c' (r' ++ rev ws)). by rewrite Hmid.
    + exists (rev r), c. split; [done |].
      by apply (lstrip_head _ _ _ Hlast).
Qed.

Lemma text_parts_of_spec (paragraph : ET.Element) :
  text_parts_of paragraph
  = omap (λ t, match ET.text t with
               | Some s => if Str.truthy s then Some s else None
               | None => None
               end)
         (ET.findall paragraph w_t).
Proof.
  unfold text_parts_of.
  assert (∀ ts parts,
            fold_left
              (fun text_parts t =>
                 match ET.text t with
                 | Some s => if Str.truthy s then text_parts ++ [s] else text_parts
                 | None => text_parts
                 end) ts parts
            = parts ++ omap (λ t, match ET.text t with
                                  | Some s => if Str.truthy s then Some s else None
                                  | None => None
                                  end) ts) as Hloop.
  { induction ts as [|t ts IH]; intros parts; simpl; [by rewrite app_nil_r |].
    rewrite IH.
    destruct (ET.text t) as [s|]; [|done].
    destruct (Str.truthy s); [by rewrite <- app_assoc | done]. }
  apply Hloop.
Qed.

(** The text of a paragraph before trimming: the character data of its
    [w:t] elements, in document order, with nothing in between. *)
Lemma text_parts_of_concat (paragraph : ET.Element) :
  Str.concat_all (text_parts_of paragraph)
  = concat (List.map (λ t, default [] (ET.text t)) (ET.findall paragraph w_t)).
Proof.
  rewrite text_parts_of_spec. unfold Str.concat_all.
  induction (ET.findall paragraph w_t) as [|t ts IH]; [done |].
  cbn [List.map concat]. rewrite <- IH. cbn [omap list_omap].
  by destruct (ET.text t) as [[|c s]|].
Qed.

(** Every [Text] element is the text of one of the paragraphs, that is the
    character data of its runs put together in document order, without the
    white space at its two ends; it is not empty and neither begins nor
    ends with white space. *)
Theorem text_elements_are_trimmed
    (fromstring : bytes → result ET.Element) (HAS_DOCX : bool)
    (Document : zipfile → result unit) (z : zipfile)
    (elements : list element) (images : gmap str bytes) (root : ET.Element)
    (content : str) :
  parse_docx_structure fromstring HAS_DOCX Document z = Ok (elements, images) →
  parsed fromstring z document_part = Ok root →
  In (Text content) elements →
  ∃ paragraph pre post,
    In paragraph (ET.findall root w_p)
    ∧ concat (List.map (λ t, default [] (ET.text t)) (ET.findall paragraph w_t))
      = pre ++ content ++ post
    ∧ Forall (λ c, Str.isspace c = true) pre
    ∧ Forall (λ c, Str.isspace c = true) post
    ∧ (∃ c r, content = c :: r ∧ Str.isspace c = false)
    ∧ (∃ r c, content = r ++ [c] ∧ Str.isspace c = false).
Proof.
  intros Hparse Hroot Hin.
  apply parse_docx_structure_inv in Hparse as (-> & root' & Hroot' & ->).
  rewrite Hroot in Hroot'. injection Hroot' as <-.
  apply in_concat in Hin as (l & Hl & Hin).
  apply in_map_iff in Hl as (paragraph & <- & Hp).
  unfold paragraph_elements in Hin. apply in_app_or in Hin as [Hin | Hin].
  - unfold text_element in Hin.
    destruct (Str.truthy (paragraph_text paragraph)) eqn:Htruthy; [|done].
    destruct Hin as [[= <-] | []].
    unfold paragraph_text in Htruthy |- *.
    destruct (strip_spec (Str.concat_all (text_parts_of paragraph)))
      as (pre & post & Hs & Hpre & Hpost & Hends).
    exists paragraph, pre, post.
    rewrite <- text_parts_of_concat.
    destruct Hends as [Hempty | [Hfirst Hlast]]; [by rewrite Hempty in Htruthy |].
    done.
  - unfold image_element in Hin.
    destruct (recognized_image _ _ _); [|done].
    by destruct Hin as [[=] | []].
Qed.

Lemma text_elements_are_trimmed_witness :
  ∃ paragraph pre post,
    In paragraph (ET.findall Fixtures.caption_doc w_p)
    ∧ concat (List.map (λ t, default [] (ET.text t)) (ET.findall paragraph w_t))
      = pre ++ u8 "Figure 1" ++ post
    ∧ Forall (λ c, Str.isspace c = true) pre
    ∧ Forall (λ c, Str.isspace c = true) post
    ∧ (∃ c r, u8 "Figure 1" = c :: r ∧ Str.isspace c = false)
    ∧ (∃ r c, u8 "Figure 1" = r ++ [c] ∧ Str.isspace c = false).
Proof.
  apply (text_elements_are_trimmed
           (Fixtures.fromstring Fixtures.trees) true Fixtures.opens
           Fixtures.docx_caption
           [Text (u8 "Intro"); Text (u8 "Figure 1"); Image (u8 "word/media/A.png");
            Text (u8 "End")]
           (extract_images_from_docx Fixtures.docx_caption) Fixtures.caption_doc).
  - vm_compute. reflexivity.
  - vm_compute. reflexivity.
  - right. left. reflexivity.
Defined.

(** ** The output file *)

Lemma join_snoc (sep : str) (lines : list str) (x y : str) :
  Str.join sep (lines ++ [x; y]) = Str.join sep (lines ++ [x]) ++ sep ++ y.
Proof.
  induction lines as [|l ls IH]; [done |].
  change ((l :: ls) ++ [x; y]) with (l :: (ls ++ [x; y])).
  change ((l :: ls) ++ [x]) with (l :: (ls ++ [x])).
  cbn [Str.join]. rewrite IH.
  destruct (ls ++ [x; y]) eqn:H1; [by destruct ls |].
  destruct (ls ++ [x]) eqn:H2; [by destruct ls |].
  by rewrite <- !app_assoc.
Qed.

Lemma py_join_items_app (lines1 lines2 : list PyVal) (items : list str) :
  py_join_items (lines1 ++ lines2) = Ok items →
  ∃ items1 items2,
    items = items1 ++ items2
    ∧ py_join_items lines1 = Ok items1 ∧ py_join_items lines2 = Ok items2.
Proof.
  revert items.
  induction lines1 as [|v lines1 IH]; intros items; simpl.
  - intros H. by exists [], items.
  - destruct v; try done.
    destruct (py_join_items (lines1 ++ lines2)) as [rest|e] eqn:Hrest; [|done].
    simpl. intros [= <-].
    destruct (IH rest eq_refl) as (items1 & items2 & -> & -> & H2).
    exists (s :: items1), items2. by rewrite H2.
Qed.

Section OutputFacts.

Variable World : Type.
Variable describe : World → bytes → str → PyVal * World.

(** After a non-empty sequence the last two lines are a line of an element
    and the empty line. *)
Lemma render_loop_last images elements w result_lines image_count :
  elements ≠ [] →
  ∃ lines x,
    (fold_left (render_element World describe images) elements
               (w, result_lines, image_count)).1.2
    = lines ++ [x; PStr []].
Proof.
  intros Hne.
  destruct (exists_last Hne) as (els & e & ->).
  rewrite fold_left_app. cbn [fold_left].
  destruct (fold_left _ els _) as [[w1 lines1] count1].
  destruct e as [content|content]; simpl.
  - by exists lines1, (PStr content).
  - destruct (images !! content) as [data|].
    + destruct (describe w1 data (Path_name content)) as [description w2]. simpl.
      exists (lines1 ++ [PStr (image_label (S count1) (Path_name content))]),
             description.
      by rewrite <- app_assoc.
    + by exists lines1, (PStr (not_found_label (S count1) (Path_name content))).
Qed.

(** An output file that was written without an exception ends with a line
    feed. *)
Theorem written_output_ends_with_line_feed
    (fromstring : bytes → result ET.Element) (HAS_DOCX : bool)
    (Document : zipfile → result unit) (z : zipfile) (w : World) (text : str) :
  (convert_docx_to_txt World describe fromstring HAS_DOCX Document w z).1
    = {| file := Some text; status := Ok tt |} →
  ∃ body, text = body ++ nl.
Proof.
  unfold convert_docx_to_txt.
  destruct (parse_docx_structure fromstring HAS_DOCX Document z)
    as [[elements images]|e]; [|done].
  unfold render. destruct elements as [|e els]; [done |].
  unfold render_elements.
  destruct (render_loop_last images (e :: els) w [] 0) as (lines & x & Hlines);
    [done |].
  destruct (fold_left _ (e :: els) _) as [[w' result_lines] image_count].
  simpl in Hlines. subst result_lines.
  unfold py_join.
  destruct (py_join_items (lines ++ [x; PStr []])) as [items|e'] eqn:Hitems;
    simpl; [|done].
  intros [= <-].
  apply py_join_items_app in Hitems as (items1 & items2 & -> & _ & H2).
  simpl in H2. destruct x as [| | | |s| |]; try done.
  injection H2 as <-.
  rewrite join_snoc. exists (Str.join nl (items1 ++ [s])).
  by rewrite app_nil_r.
Qed.

End OutputFacts.

Lemma written_output_ends_with_line_feed_witness :
  ∃ body,
    u8 "Title" ++ nl ++ nl ++ nl ++ u8 "[ИЗОБРАЖЕНИЕ 1: A.png]" ++ nl
    ++ u8 "<desc>" ++ nl ++ nl ++ u8 "Body text" ++ nl
    = body ++ nl.
Proof.
  apply (written_output_ends_with_line_feed unit (Fixtures.stub "<desc>")
           (Fixtures.fromstring Fixtures.trees) true Fixtures.opens
           Fixtures.docx_A tt).
  vm_compute. reflexivity.
Defined.

(** ** Descriptions that are, or are not, strings *)

Lemma py_join_items_strings (lines : list PyVal) :
  Forall (λ v, is_str v = true) lines →
  ∃ items, py_join_items lines = Ok items.
Proof.
  induction 1 as [|v lines Hv _ [items IH]]; simpl; [by exists [] |].
  destruct v; try done. rewrite IH. by eexists.
Qed.

Lemma py_join_items_not_string (lines : list PyVal) :
  Exists (λ v, is_str v = false) lines →
  py_join_items lines = Raise TypeError.
Proof.
  induction lines as [|v lines IH]; intros Hex; [by inversion Hex |].
  simpl. destruct v; try done.
  inversion Hex as [? ? Hv | ? ? Hrest]; subst; [done |].
  by rewrite IH.
Qed.

Section DescriptionFacts.

Variable World : Type.
Variable describe : World → bytes → str → PyVal * World.

Lemma render_loop_strings images elements w result_lines image_count :
  (∀ w data name, is_str (describe w data name).1 = true) →
  Forall (λ v, is_str v = true) result_lines →
  Forall (λ v, is_str v = true)
         (fold_left (render_element World describe images) elements
                    (w, result_lines, image_count)).1.2.
Proof.
  intros Hstr. revert w result_lines image_count.
  induction elements as [|e els IH]; intros w result_lines image_count Hlines;
    cbn [fold_left]; [done |].
  destruct e as [content|content]; simpl.
  - apply IH. apply Forall_app. split; [done |]. by repeat constructor.
  - destruct (images !! content) as [data|].
    + pose proof (Hstr w data (Path_name content)) as Hd.
      destruct (describe w data (Path_name content)) as [description w'].
      apply IH. apply Forall_app. split; [done |]. by repeat constructor.
    + apply IH. apply Forall_app. split; [done |]. by repeat constructor.
Qed.

Lemma render_loop_not_string images elements w result_lines image_count :
  (∀ w data name, is_str (describe w data name).1 = false) →
  Forall (image_present images) elements →
  Exists (λ v, is_str v = false) result_lines
  ∨ (∃ image_path, In (Image image_path) elements) →
  Exists (λ v, is_str v = false)
         (fold_left (render_element World describe images) elements
                    (w, result_lines, image_count)).1.2.
Proof.
  intros Hnot Hpresent. revert w result_lines image_count.
  induction Hpresent as [|e els He _ IH]; intros w result_lines image_count Hcase;
    cbn [fold_left].
  - destruct Hcase as [Hex | [p []]]. done.
  - destruct e as [content|content]; simpl.
    + apply IH. destruct Hcase as [Hex | [p [[=] | Hin]]].
      * left. apply Exists_app. by left.
      * right. eauto.
    + simpl in He. destruct He as [data ->].
      pose proof (Hnot w data (Path_name content)) as Hd.
      destruct (describe w data (Path_name content)) as [description w'].
      apply IH. left. apply Exists_app. right.
      apply Exists_cons_tl. by apply Exists_cons_hd.
Qed.

End DescriptionFacts.

(** With a provider that answers with strings, every line the renderer
    collects is a string, so the join of the lines does not raise
    [TypeError], for any sequence and media store. *)
Theorem string_descriptions_join
    (World : Type) (describe : World → bytes → str → PyVal * World)
    (images : gmap str bytes) (w : World) (elements : list element) :
  (∀ w data name, is_str (describe w data name).1 = true) →
  Forall (λ v, is_str v = true)
         (render_elements World describe images w elements).1.2
  ∧ ∃ text,
      py_join nl (render_elements World describe images w elements).1.2 = Ok text.
Proof.
  intros Hstr. unfold render_elements.
  pose proof (render_loop_strings World describe images elements w [] 0 Hstr
                (Forall_nil _)) as Hlines.
  split; [done |].
  destruct (py_join_items_strings _ Hlines) as [items Hitems].
  unfold py_join. rewrite Hitems. by eexists.
Qed.

Lemma string_descriptions_join_witness :
  Forall (λ v, is_str v = true)
         (render_elements unit (Fixtures.stub "<desc>")
            (extract_images_from_docx Fixtures.docx_caption) tt
            [Text (u8 "Intro"); Text (u8 "Figure 1");
             Image (u8 "word/media/A.png"); Text (u8 "End")]).1.2
  ∧ ∃ text,
      py_join nl
        (render_elements unit (Fixtures.stub "<desc>")
           (extract_images_from_docx Fixtures.docx_caption) tt
           [Text (u8 "Intro"); Text (u8 "Figure 1");
            Image (u8 "word/media/A.png"); Text (u8 "End")]).1.2
      = Ok text.
Proof.
  apply (string_descriptions_join unit (Fixtures.stub "<desc>")).
  intros w data name. reflexivity.
Defined.

(** With a provider whose answers are not strings, the conversion of any
    document with an [Image] element raises [TypeError] when the lines are
    joined and leaves the output file empty. *)
Theorem non_string_description_aborts
    (World : Type) (describe : World → bytes → str → PyVal * World)
    (fromstring : bytes → result ET.Element) (HAS_DOCX : bool)
    (Document : zipfile → result unit) (z : zipfile) (w : World)
    (elements : list element) (images : gmap str bytes) (image_path : str) :
  (∀ w data name, is_str (describe w data name).1 = false) →
  parse_docx_structure fromstring HAS_DOCX Document z = Ok (elements, images) →
  In (Image image_path) elements →
  (convert_docx_to_txt World describe fromstring HAS_DOCX Document w z).1
  = {| file := Some []; status := Raise TypeError |}.
Proof.
  intros Hnot Hparse Hin.
  pose proof (parse_docx_structure_present _ _ _ _ _ _ Hparse) as Hpresent.
  unfold convert_docx_to_txt. rewrite Hparse. unfold render.
  destruct elements as [|e els]; [done |].
  unfold render_elements.
  pose proof (render_loop_not_string World describe images (e :: els) w [] 0
                Hnot Hpresent (or_intror (ex_intro _ image_path Hin))) as Hlines.
  destruct (fold_left _ (e :: els) _) as [[w' result_lines] image_count].
  simpl in Hlines.
  unfold py_join. by rewrite (py_join_items_not_string _ Hlines).
Qed.

Lemma non_string_description_aborts_witness :
  (convert_docx_to_txt unit
     (analyze_image_with_api unit (Fixtures.answers (Fixtures.completion PNone))
        Fixtures.no_b64 Fixtures.some_message Fixtures.key Fixtures.model)
     (Fixtures.fromstring Fixtures.trees) true Fixtures.opens tt
     Fixtures.docx_caption).1
  = {| file := Some []; status := Raise TypeError |}.
Proof.
  apply (non_string_description_aborts unit _
           (Fixtures.fromstring Fixtures.trees) true Fixtures.opens
           Fixtures.docx_caption tt
           [Text (u8 "Intro"); Text (u8 "Figure 1"); Image (u8 "word/media/A.png");
            Text (u8 "End")]
           (extract_images_from_docx Fixtures.docx_caption)
           (u8 "word/media/A.png")).
  - intros w data name. reflexivity.
  - vm_compute. reflexivity.
  - right. right. left. reflexivity.
Defined.

(** ** The calls of the provider *)

Lemma render_loop_calls (World : Type)
    (describe : World → bytes → str → PyVal * World)
    (images : gmap str bytes) (elements : list element)
    (w : World) (log : list (bytes * str)) (result_lines : list PyVal)
    (image_count : nat) :
  (fold_left (render_element (World * list (bytes * str)) (logged World describe)
                             images)
             elements (w, log, result_lines, image_count)).1.1.2
  = log ++ image_calls images elements.
Proof.
  revert w log result_lines image_count.
  induction elements as [|e els IH]; intros w log result_lines image_count;
    cbn [fold_left].
  - by rewrite app_nil_r.
  - destruct e as [content|content]; simpl.
    + apply IH.
    + destruct (images !! content) as [data|]; simpl.
      * unfold logged at 2. simpl.
        destruct (describe w data (Path_name content)) as [description w'].
        rewrite IH. by rewrite <- app_assoc.
      * apply IH.
Qed.

Lemma image_calls_length (images : gmap str bytes) (elements : list element) :
  Forall (image_present images) elements →
  length (image_calls images elements) = count_images elements.
Proof.
  unfold image_calls, count_images.
  induction 1 as [|e els He _ IH]; [done |].
  destruct e as [content|content]; simpl; [exact IH |].
  simpl in He. destruct He as [data ->]. simpl. f_equal. exact IH.
Qed.

(** During a conversion the provider is called once for each [Image]
    element, in the order of the sequence, with the bytes the media store
    holds for its path and the last segment of the path as name; it is not
    called for anything else. *)
Theorem provider_called_once_per_image
    (World : Type) (describe : World → bytes → str → PyVal * World)
    (fromstring : bytes → result ET.Element) (HAS_DOCX : bool)
    (Document : zipfile → result unit) (z : zipfile) (w : World)
    (log : list (bytes * str))
    (elements : list element) (images : gmap str bytes) :
  parse_docx_structure fromstring HAS_DOCX Document z = Ok (elements, images) →
  (convert_docx_to_txt (World * list (bytes * str)) (logged World describe)
     fromstring HAS_DOCX Document (w, log) z).2.2
  = log ++ image_calls images elements
  ∧ length (image_calls images elements) = count_images elements.
Proof.
  intros Hparse.
  split; [|by apply image_calls_length, (parse_docx_structure_present _ _ _ _ _ _ Hparse)].
  unfold convert_docx_to_txt. rewrite Hparse. unfold render.
  destruct elements as [|e els]; [by rewrite app_nil_r |].
  unfold render_elements.
  pose proof (render_loop_calls World describe images (e :: els) w log [] 0)
    as Hcalls.
  destruct (fold_left _ (e :: els) _) as [[[w' log'] result_lines] image_count].
  simpl in Hcalls. subst log'.
  by destruct (py_join nl result_lines).
Qed.

Lemma provider_called_once_per_image_witness :
  (convert_docx_to_txt (unit * list (bytes * str))
     (logged unit (Fixtures.stub "<desc>"))
     (Fixtures.fromstring Fixtures.trees) true Fixtures.opens (tt, [])
     Fixtures.docx_caption).2.2
  = [] ++ image_calls (extract_images_from_docx Fixtures.docx_caption)
            [Text (u8 "Intro"); Text (u8 "Figure 1");
             Image (u8 "word/media/A.png"); Text (u8 "End")]
  ∧ length (image_calls (extract_images_from_docx Fixtures.docx_caption)
              [Text (u8 "Intro"); Text (u8 "Figure 1");
               Image (u8 "word/media/A.png"); Text (u8 "End")])
    = count_images [Text (u8 "Intro"); Text (u8 "Figure 1");
                    Image (u8 "word/media/A.png"); Text (u8 "End")].
Proof.
  apply (provider_called_once_per_image unit (Fixtures.stub "<desc>")
           (Fixtures.fromstring Fixtures.trees) true Fixtures.opens
           Fixtures.docx_caption tt []).
  vm_compute. reflexivity.
Defined.

(** ** The answers of the provider *)

Lemma analyze_try_request
    (World : Type) (requests_post : World → Request → result Response * World)
    (b64encode : bytes → str) (OPENROUTER_API_KEY VISION_MODEL : str)
    (w : World) (image_data : bytes) (image_name : str) :
  analyze_try World requests_post b64encode OPENROUTER_API_KEY VISION_MODEL
              w image_data image_name
  = let '(response, w') :=
      requests_post w (request_for b64encode OPENROUTER_API_KEY VISION_MODEL
                                   image_data image_name) in
    (response ← response;
     _ ← raise_for_status response;
     res ← json response;
     read_result res image_name, w').
Proof. reflexivity. Qed.

(** When the request fails before its body is read (an exception of the
    client, a status from 400 to 599, a body that is not JSON), the
    description is the placeholder with the name of the image and the
    message of the exception; without a credential it is the placeholder of
    line 51 and no request is made. *)
Theorem analyze_failure_placeholder
    (World : Type) (requests_post : World → Request → result Response * World)
    (b64encode : bytes → str) (exc_str : exc → str)
    (OPENROUTER_API_KEY VISION_MODEL : str)
    (w w' : World) (image_data : bytes) (image_name : str)
    (r : result Response) (e : exc) :
  requests_post w (request_for b64encode OPENROUTER_API_KEY VISION_MODEL
                               image_data image_name) = (r, w') →
  transport_failure r = Some e →
  analyze_image_with_api World requests_post b64encode exc_str
                         OPENROUTER_API_KEY VISION_MODEL w image_data image_name
  = if Str.truthy OPENROUTER_API_KEY
    then (failure_placeholder image_name (exc_str e), w')
    else (PStr (u8 "[Изображение: " ++ image_name ++ u8 " - API токен не найден]"),
          w).
Proof.
  intros Hpost Hfail. unfold analyze_image_with_api.
  destruct (Str.truthy OPENROUTER_API_KEY); simpl; [|done].
  rewrite analyze_try_request, Hpost.
  unfold transport_failure in Hfail.
  destruct r as [response|e']; simpl.
  - destruct (raise_for_status response) as [[]|e']; simpl.
    + destruct (json response) as [res|e']; simpl; [done |].
      by injection Hfail as ->.
    + by injection Hfail as ->.
  - by injection Hfail as ->.
Qed.

Lemma analyze_failure_placeholder_witness :
  analyze_image_with_api unit (Fixtures.answers_status 503) Fixtures.no_b64
    Fixtures.some_message Fixtures.key Fixtures.model tt Fixtures.png_A (u8 "A.png")
  = if Str.truthy Fixtures.key
    then (failure_placeholder (u8 "A.png") (Fixtures.some_message (HTTPError 503)),
          tt)
    else (PStr (u8 "[Изображение: " ++ u8 "A.png" ++ u8 " - API токен не найден]"),
          tt).
Proof.
  apply (analyze_failure_placeholder unit (Fixtures.answers_status 503)
           Fixtures.no_b64 Fixtures.some_message Fixtures.key Fixtures.model
           tt tt Fixtures.png_A (u8 "A.png")
           (Ok {| status_code := 503; json := Raise JSONDecodeError |})).
  - reflexivity.
  - vm_compute. reflexivity.
Defined.

(** A body of the expected shape gives its content as it is. *)
Theorem analyze_returns_content
    (World : Type) (requests_post : World → Request → result Response * World)
    (b64encode : bytes → str) (exc_str : exc → str)
    (OPENROUTER_API_KEY VISION_MODEL : str)
    (w w' : World) (image_data : bytes) (image_name : str)
    (response : Response) (items first message : list (str * PyVal))
    (others : list PyVal) (content : PyVal) :
  Str.truthy OPENROUTER_API_KEY = true →
  requests_post w (request_for b64encode OPENROUTER_API_KEY VISION_MODEL
                               image_data image_name) = (Ok response, w') →
  raise_for_status response = Ok tt →
  json response = Ok (PDict items) →
  dict_lookup items (u8 "choices") = Some (PList (PDict first :: others)) →
  dict_lookup first (u8 "message") = Some (PDict message) →
  dict_lookup message (u8 "content") = Some content →
  analyze_image_with_api World requests_post b64encode exc_str
                         OPENROUTER_API_KEY VISION_MODEL w image_data image_name
  = (content, w').
Proof.
  intros Hkey Hpost Hstatus Hjson Hchoices Hmessage Hcontent.
  unfold analyze_image_with_api. rewrite Hkey. simpl.
  rewrite analyze_try_request, Hpost. simpl.
  rewrite Hstatus. simpl. rewrite Hjson. simpl.
  unfold read_result, py_contains, py_getitem. rewrite Hchoices.
  rewrite bool_decide_eq_true_2 by eauto. simpl.
  rewrite Hmessage. simpl. by rewrite Hcontent.
Qed.

Lemma analyze_returns_content_witness :
  analyze_image_with_api unit
    (Fixtures.answers (Fixtures.completion (PStr (u8 "A cat."))))
    Fixtures.no_b64 Fixtures.some_message Fixtures.key Fixtures.model
    tt Fixtures.png_A (u8 "A.png")
  = (PStr (u8 "A cat."), tt).
Proof.
  apply (analyze_returns_content unit
           (Fixtures.answers (Fixtures.completion (PStr (u8 "A cat."))))
           Fixtures.no_b64 Fixtures.some_message Fixtures.key Fixtures.model
           tt tt Fixtures.png_A (u8 "A.png")
           {| status_code := 200;
              json := Ok (Fixtures.completion (PStr (u8 "A cat."))) |}
           [(u8 "choices",
             PList [PDict [(u8 "message", PDict [(u8 "content", PStr (u8 "A cat."))])]])]
           [(u8 "message", PDict [(u8 "content", PStr (u8 "A cat."))])]
           [(u8 "content", PStr (u8 "A cat."))] []);
    vm_compute; reflexivity.
Defined.

(** A JSON object without a [choices] key, or with an empty list of
    choices, gives the placeholder of line 104. *)
Theorem analyze_without_choices
    (World : Type) (requests_post : World → Request → result Response * World)
    (b64encode : bytes → str) (exc_str : exc → str)
    (OPENROUTER_API_KEY VISION_MODEL : str)
    (w w' : World) (image_data : bytes) (image_name : str)
    (response : Response) (items : list (str * PyVal)) :
  Str.truthy OPENROUTER_API_KEY = true →
  requests_post w (request_for b64encode OPENROUTER_API_KEY VISION_MODEL
                               image_data image_name) = (Ok response, w') →
  raise_for_status response = Ok tt →
  json response = Ok (PDict items) →
  (dict_lookup items (u8 "choices") = None
   ∨ dict_lookup items (u8 "choices") = Some (PList [])) →
  analyze_image_with_api World requests_post b64encode exc_str
                         OPENROUTER_API_KEY VISION_MODEL w image_data image_name
  = (PStr (u8 "[Изображение: " ++ image_name
           ++ u8 " - Не удалось получить описание]"), w').
Proof.
  intros Hkey Hpost Hstatus Hjson Hchoices.
  unfold analyze_image_with_api. rewrite Hkey. simpl.
  rewrite analyze_try_request, Hpost. simpl.
  rewrite Hstatus. simpl. rewrite Hjson. simpl.
  unfold read_result, py_contains, py_getitem.
  destruct Hchoices as [-> | ->].
  - rewrite bool_decide_eq_false_2; [done |]. by intros [? ?].
  - rewrite bool_decide_eq_true_2 by eauto. done.
Qed.

Lemma analyze_without_choices_witness :
  analyze_image_with_api unit
    (Fixtures.answers (PDict [(u8 "error", PStr (u8 "overloaded"))]))
    Fixtures.no_b64 Fixtures.some_message Fixtures.key Fixtures.model
    tt Fixtures.png_A (u8 "A.png")
  = (PStr (u8 "[Изображение: " ++ u8 "A.png"
           ++ u8 " - Не удалось получить описание]"), tt).
Proof.
  apply (analyze_without_choices unit
           (Fixtures.answers (PDict [(u8 "error", PStr (u8 "overloaded"))]))
           Fixtures.no_b64 Fixtures.some_message Fixtures.key Fixtures.model
           tt tt Fixtures.png_A (u8 "A.png")
           {| status_code := 200;
              json := Ok (PDict [(u8 "error", PStr (u8 "overloaded"))]) |}
           [(u8 "error", PStr (u8 "overloaded"))]).
  - reflexivity.
  - reflexivity.
  - reflexivity.
  - reflexivity.
  - left. vm_compute. reflexivity.
Defined.

Lemma read_result_inv (res : PyVal) (image_name : str) (v : PyVal) :
  read_result res image_name = Ok v →
  v = no_description image_name
  ∨ ∃ choices first message,
      py_getitem res (u8 "choices") = Ok choices
      ∧ py_getitem0 choices = Ok first
      ∧ py_getitem first (u8 "message") = Ok message
      ∧ py_getitem message (u8 "content") = Ok v.
Proof.
  unfold read_result.
  destruct (py_contains res (u8 "choices")) as [[|]|e]; simpl; [| |done].
  - destruct (py_getitem res (u8 "choices")) as [choices|e]; simpl; [|done].
    destruct (py_len choices) as [n|e]; simpl; [|done].
    destruct (0 <? n)%nat; [|by intros [= <-]; left].
    destruct (py_getitem0 choices) as [first|e] eqn:Hfirst; simpl; [|done].
    destruct (py_getitem first (u8 "message")) as [message|e] eqn:Hmessage;
      simpl; [|done].
    intros Hcontent. right. by exists choices, first, message.
  - intros [= <-]. by left.
Qed.

(** The description is a string in every case but one: the request
    succeeded, its body was decoded, and
    [result['choices'][0]['message']['content']] is not a string; this
    value is then returned as it is. *)
Theorem analyze_non_string_is_content
    (World : Type) (requests_post : World → Request → result Response * World)
    (b64encode : bytes → str) (exc_str : exc → str)
    (OPENROUTER_API_KEY VISION_MODEL : str)
    (w : World) (image_data : bytes) (image_name : str) :
  is_str (analyze_image_with_api World requests_post b64encode exc_str
            OPENROUTER_API_KEY VISION_MODEL w image_data image_name).1 = false →
  ∃ response res choices first message content,
    (requests_post w (request_for b64encode OPENROUTER_API_KEY VISION_MODEL
                                  image_data image_name)).1 = Ok response
    ∧ raise_for_status response = Ok tt
    ∧ json response = Ok res
    ∧ py_getitem res (u8 "choices") = Ok choices
    ∧ py_getitem0 choices = Ok first
    ∧ py_getitem first (u8 "message") = Ok message
    ∧ py_getitem message (u8 "content") = Ok content
    ∧ is_str content = false
    ∧ (analyze_image_with_api World requests_post b64encode exc_str
         OPENROUTER_API_KEY VISION_MODEL w image_data image_name).1 = content.
Proof.
  unfold analyze_image_with_api.
  destruct (negb (Str.truthy OPENROUTER_API_KEY)); simpl; [done |].
  rewrite analyze_try_request.
  destruct (requests_post w _) as [[response|e] w']; simpl; [|done].
  destruct (raise_for_status response) as [[]|e] eqn:Hstatus; simpl; [|done].
  destruct (json response) as [res|e] eqn:Hjson; simpl; [|done].
  destruct (read_result res image_name) as [content|e] eqn:Hread; simpl; [|done].
  intros Hcontent.
  apply read_result_inv in Hread as [-> | (choices & first & message & H1 & H2 & H3 & H4)];
    [done |].
  by exists response, res, choices, first, message, content.
Qed.

Lemma analyze_non_string_is_content_witness :
  ∃ response res choices first message content,
    (Fixtures.answers (Fixtures.completion PNone) tt
       (request_for Fixtures.no_b64 Fixtures.key Fixtures.model Fixtures.png_A
                    (u8 "A.png"))).1 = Ok response
    ∧ raise_for_status response = Ok tt
    ∧ json response = Ok res
    ∧ py_getitem res (u8 "choices") = Ok choices
    ∧ py_getitem0 choices = Ok first
    ∧ py_getitem first (u8 "message") = Ok message
    ∧ py_getitem message (u8 "content") = Ok content
    ∧ is_str content = false
    ∧ (analyze_image_with_api unit (Fixtures.answers (Fixtures.completion PNone))
         Fixtures.no_b64 Fixtures.some_message Fixtures.key Fixtures.model
         tt Fixtures.png_A (u8 "A.png")).1 = content.
Proof.
  apply (analyze_non_string_is_content unit
           (Fixtures.answers (Fixtures.completion PNone))
           Fixtures.no_b64 Fixtures.some_message Fixtures.key Fixtures.model
           tt Fixtures.png_A (u8 "A.png")).
  vm_compute. reflexivity.
Defined.

(** ** Names and extensions *)

Lemma split_nonempty (sep : N) (s : str) : Str.split sep s ≠ [].
Proof.
  destruct s as [|c r]; simpl; [done |].
  destruct (c =? sep); [done |]. by destruct (Str.split sep r).
Qed.

Lemma split_no_sep (sep : N) (s : str) :
  ¬ In sep s → Str.split sep s = [s].
Proof.
  induction s as [|c r IH]; simpl; [done |].
  intros Hnot.
  destruct (N.eqb_spec c sep) as [-> | Hne]; [tauto |].
  rewrite IH by tauto. done.
Qed.

Lemma split_app_sep (sep : N) (a b : str) :
  Str.split sep (a ++ sep :: b) = Str.split sep a ++ Str.split sep b.
Proof.
  induction a as [|c a IH]; simpl.
  - by rewrite N.eqb_refl.
  - destruct (c =? sep); [by rewrite IH |].
    rewrite IH.
    pose proof (split_nonempty sep a) as Hne.
    by destruct (Str.split sep a).
Qed.

Lemma Path_name_plain (name : str) :
  ¬ In 47 name → name ≠ [] → name ≠ u8 "." →
  Path_name name = name.
Proof.
  intros Hslash Hempty Hdot. unfold Path_name.
  rewrite split_no_sep by done. simpl.
  rewrite (bool_decide_eq_false_2 (name = [])) by done.
  rewrite (bool_decide_eq_false_2 (name = u8 ".")) by done.
  done.
Qed.

(** For a path made of a directory, a slash and a file name (not empty,
    not [.], without a slash), [Path(path).name] is the file name. *)
Lemma Path_name_last_segment (dir name : str) :
  ¬ In 47 name → name ≠ [] → name ≠ u8 "." →
  Path_name (dir ++ 47 :: name) = name.
Proof.
  intros Hslash Hempty Hdot. unfold Path_name.
  rewrite split_app_sep, List.filter_app, (split_no_sep 47 name) by done. simpl.
  rewrite (bool_decide_eq_false_2 (name = [])) by done.
  rewrite (bool_decide_eq_false_2 (name = u8 ".")) by done.
  simpl. by rewrite last_last.
Qed.

Lemma rfind_dot_none (s : str) : ¬ In 46 s → rfind_dot s = None.
Proof.
  induction s as [|c r IH]; simpl; [done |].
  intros Hnot. rewrite IH by tauto.
  destruct (N.eqb_spec c 46) as [-> | Hne]; [tauto | done].
Qed.

Lemma rfind_dot_last (stem ext : str) :
  ¬ In 46 ext → rfind_dot (stem ++ 46 :: ext) = Some (length stem).
Proof.
  intros Hnot.
  induction stem as [|c stem IH]; simpl.
  - by rewrite rfind_dot_none.
  - by rewrite IH.
Qed.

(** The MIME type of the request is chosen by the text after the last dot
    of the image name, in lower case: for a name made of a non-empty stem,
    a dot and a non-empty extension without a dot (and no slash anywhere),
    the data URL is [data:], the type the table gives for the extension, or
    [image/png] when it has none, [;base64,] and the encoded bytes. A name
    without a dot goes out as [image/png]. *)
Theorem request_mime_type
    (b64encode : bytes → str) (OPENROUTER_API_KEY VISION_MODEL : str)
    (image_data : bytes) (stem ext : str) :
  stem ≠ [] → ext ≠ [] →
  ¬ In 47 stem → ¬ In 47 ext → ¬ In 46 ext →
  req_image_url (request_for b64encode OPENROUTER_API_KEY VISION_MODEL image_data
                             (stem ++ 46 :: ext))
  = u8 "data:" ++ mime_type_of (46 :: Str.lower ext) ++ u8 ";base64,"
    ++ b64encode image_data
  ∧ (¬ In 46 stem →
     req_image_url (request_for b64encode OPENROUTER_API_KEY VISION_MODEL
                                image_data stem)
     = u8 "data:image/png;base64," ++ b64encode image_data).
Proof.
  intros Hstem Hext Hslash1 Hslash2 Hdot. split.
  - unfold request_for, req_image_url, Path_suffix.
    rewrite Path_name_plain.
    + rewrite rfind_dot_last by done.
      assert (length (stem ++ 46 :: ext) = (length stem + S (length ext))%nat)
        as -> by (by rewrite length_app).
      assert (((0 <? length stem)%nat
               && (length stem <? length stem + S (length ext) - 1)%nat)%bool = true)
        as ->.
      { destruct stem; [done |]. destruct ext; [done |].
        apply andb_true_intro. split; apply Nat.ltb_lt; simpl; lia. }
      by rewrite drop_app_length.
    + intros Hin. apply in_app_or in Hin as [Hin | [Hin | Hin]]; [tauto | done | tauto].
    + by destruct stem.
    + destruct stem as [|c [|c' stem]]; [done | |done].
      destruct ext; [done |]. done.
  - intros Hnodot. unfold request_for, req_image_url, Path_suffix.
    assert (match rfind_dot (Path_name stem) with
            | Some i =>
                if ((0 <? i)%nat && (i <? length (Path_name stem) - 1)%nat)%bool
                then drop i (Path_name stem) else []
            | None => []
            end = []) as ->; [|done].
    destruct (decide (stem = u8 ".")) as [-> | Hne]; [done |].
    rewrite Path_name_plain by done. by rewrite rfind_dot_none.
Qed.

Lemma request_mime_type_witness :
  req_image_url (request_for Fixtures.no_b64 Fixtures.key Fixtures.model
                             Fixtures.png_A (u8 "scan.v2" ++ 46 :: u8 "JPG"))
  = u8 "data:" ++ mime_type_of (46 :: Str.lower (u8 "JPG")) ++ u8 ";base64,"
    ++ Fixtures.no_b64 Fixtures.png_A
  ∧ (¬ In 46 (u8 "scan.v2") →
     req_image_url (request_for Fixtures.no_b64 Fixtures.key Fixtures.model
                                Fixtures.png_A (u8 "scan.v2"))
     = u8 "data:image/png;base64," ++ Fixtures.no_b64 Fixtures.png_A).
Proof.
  apply (request_mime_type Fixtures.no_b64 Fixtures.key Fixtures.model
           Fixtures.png_A (u8 "scan.v2") (u8 "JPG")).
  - discriminate.
  - discriminate.
  - vm_compute. intuition discriminate.
  - vm_compute. intuition discriminate.
  - vm_compute. intuition discriminate.
Defined.

(** ** The block of an image *)

(** For an [Image] element whose path is a directory, a slash and a file
    name, and is in the media store, the renderer calls the provider with
    the bytes of the store and the file name, and adds three lines: a line
    feed and the label [[ИЗОБРАЖЕНИЕ n: file name]] with the counter after
    its increment, the description, and the empty line. *)
Theorem image_block_shows_file_name
    (World : Type) (describe : World → bytes → str → PyVal * World)
    (images : gmap str bytes) (w : World) (result_lines : list PyVal)
    (image_count : nat) (dir name : str) (data : bytes) :
  ¬ In 47 name → name ≠ [] → name ≠ u8 "." →
  images !! (dir ++ 47 :: name) = Some data →
  render_element World describe images (w, result_lines, image_count)
                 (Image (dir ++ 47 :: name))
  = ((describe w data name).2,
     result_lines
       ++ [PStr (nl ++ u8 "[ИЗОБРАЖЕНИЕ " ++ Str.of_nat (S image_count) ++ u8 ": "
                 ++ name ++ u8 "]");
           (describe w data name).1;
           PStr []],
     S image_count).
Proof.
  intros Hslash Hempty Hdot Hdata.
  cbn [render_element]. rewrite Hdata, Path_name_last_segment by done.
  by destruct (describe w data name).
Qed.

Lemma image_block_shows_file_name_witness :
  render_element unit (Fixtures.stub "<desc>")
    (extract_images_from_docx Fixtures.docx_A) (tt, [], 0%nat)
    (Image (u8 "word/media" ++ 47 :: u8 "A.png"))
  = ((Fixtures.stub "<desc>" tt Fixtures.png_A (u8 "A.png")).2,
     [] ++ [PStr (nl ++ u8 "[ИЗОБРАЖЕНИЕ " ++ Str.of_nat 1 ++ u8 ": "
                  ++ u8 "A.png" ++ u8 "]");
            (Fixtures.stub "<desc>" tt Fixtures.png_A (u8 "A.png")).1;
            PStr []],
     1%nat).
Proof.
  apply (image_block_shows_file_name unit (Fixtures.stub "<desc>")
           (extract_images_from_docx Fixtures.docx_A) tt [] 0%nat
           (u8 "word/media") (u8 "A.png") Fixtures.png_A).
  - vm_compute. intuition discriminate.
  - discriminate.
  - discriminate.
  - vm_compute. reflexivity.
Defined.

(** ** Relationships with the same Id *)

Lemma rel_to_image_loop_keeps (rels : list ET.Element)
    (table : gmap (option str) str) (k : option str) :
  Forall (λ r, ¬ (Str.startswith (default [] (ET.get r (u8 "Target")))
                                 (u8 "media/") = true
                  ∧ ET.get r (u8 "Id") = k)) rels →
  fold_left
    (fun rel_to_image rel =>
       let target := default [] (ET.get rel (u8 "Target")) in
       if Str.startswith target (u8 "media/")
       then <[ET.get rel (u8 "Id") := u8 "word/" ++ target]> rel_to_image
       else rel_to_image)
    rels table !! k
  = table !! k.
Proof.
  intros Hrels. revert table.
  induction Hrels as [|rel rels Hrel _ IH]; intros table; [done |].
  cbn [fold_left]. rewrite IH. cbv zeta.
  destruct (Str.startswith _ _) eqn:Hprefix; [|done].
  apply lookup_insert_ne. intros Hid. by apply Hrel.
Qed.

(** A relationship whose [Target] begins with [media/] is in the table
    under its [Id] with the path [word/] and the target, provided that no
    later relationship with such a target has the same [Id]: of several
    relationships with one [Id], the last one counts. *)
Theorem rel_to_image_last_wins (rels_root rel : ET.Element)
    (before after : list ET.Element) (target : str) :
  ET.findall rels_root r_Relationship = before ++ rel :: after →
  ET.get rel (u8 "Target") = Some target →
  Str.startswith target (u8 "media/") = true →
  Forall (λ r, ¬ (Str.startswith (default [] (ET.get r (u8 "Target")))
                                 (u8 "media/") = true
                  ∧ ET.get r (u8 "Id") = ET.get rel (u8 "Id"))) after →
  primary_rel_to_image rels_root !! ET.get rel (u8 "Id") = Some (u8 "word/" ++ target)
  ∧ fallback_rel_to_image rels_root !! ET.get rel (u8 "Id")
    = Some (u8 "word/" ++ target).
Proof.
  intros Hsplit Htarget Hprefix Hafter.
  assert (fallback_rel_to_image rels_root !! ET.get rel (u8 "Id")
          = Some (u8 "word/" ++ target)) as Hlookup; [|done].
  unfold fallback_rel_to_image. rewrite Hsplit, fold_left_app.
  cbn [fold_left]. rewrite rel_to_image_loop_keeps by done.
  cbv zeta. rewrite Htarget. simpl. rewrite Hprefix.
  apply lookup_insert_eq.
Qed.

Lemma rel_to_image_last_wins_witness :
  primary_rel_to_image Fixtures.rels_twice
    !! ET.get (Fixtures.relationship "rId1" "media/B.png") (u8 "Id")
  = Some (u8 "word/" ++ u8 "media/B.png")
  ∧ fallback_rel_to_image Fixtures.rels_twice
      !! ET.get (Fixtures.relationship "rId1" "media/B.png") (u8 "Id")
    = Some (u8 "word/" ++ u8 "media/B.png").
Proof.
  apply (rel_to_image_last_wins Fixtures.rels_twice
           (Fixtures.relationship "rId1" "media/B.png")
           [Fixtures.relationship "rId1" "media/A.png"]
           [Fixtures.relationship "rId3" "styles.xml"]).
  - vm_compute. reflexivity.
  - vm_compute. reflexivity.
  - vm_compute. reflexivity.
  - repeat constructor. vm_compute. intuition discriminate.
Defined.

(** ** The counters in the output *)

Lemma render_element_frame (World : Type)
    (describe : World → bytes → str → PyVal * World)
    (images : gmap str bytes) (w : World) (result_lines : list PyVal)
    (image_count : nat) (e : element) :
  render_element World describe images (w, result_lines, image_count) e
  = ((render_element World describe images (w, [], image_count) e).1.1,
     result_lines
       ++ (render_element World describe images (w, [], image_count) e).1.2,
     (render_element World describe images (w, [], image_count) e).2).
Proof.
  destruct e as [content|content]; simpl; [done |].
  destruct (images !! content) as [data|]; [|done].
  by destruct (describe w data (Path_name content)).
Qed.

Lemma render_loop_frame (World : Type)
    (describe : World → bytes → str → PyVal * World)
    (images : gmap str bytes) (elements : list element) (w : World)
    (result_lines : list PyVal) (image_count : nat) :
  fold_left (render_element World describe images) elements
            (w, result_lines, image_count)
  = ((fold_left (render_element World describe images) elements
                (w, [], image_count)).1.1,
     result_lines
       ++ (fold_left (render_element World describe images) elements
                     (w, [], image_count)).1.2,
     (fold_left (render_element World describe images) elements
                (w, [], image_count)).2).
Proof.
  revert w result_lines image_count.
  induction elements as [|e els IH]; intros w result_lines image_count;
    cbn [fold_left].
  - by rewrite app_nil_r.
  - rewrite (render_element_frame _ _ _ w result_lines).
    destruct (render_element World describe images (w, [], image_count) e)
      as [[w1 block] count1].
    cbn [fst snd].
    rewrite (IH w1 (result_lines ++ block)), (IH w1 block).
    by rewrite <- app_assoc.
Qed.

Lemma render_nonempty (World : Type)
    (describe : World → bytes → str → PyVal * World)
    (images : gmap str bytes) (w : World) (elements : list element) :
  elements ≠ [] →
  render World describe w elements images
  = match py_join nl (render_elements World describe images w elements).1.2 with
    | Ok text =>
        ({| file := Some text; status := Ok tt |},
         (render_elements World describe images w elements).1.1)
    | Raise e =>
        ({| file := Some []; status := Raise e |},
         (render_elements World describe images w elements).1.1)
    end.
Proof.
  intros Hne. unfold render.
  destruct elements as [|e els]; [done |].
  by destruct (render_elements World describe images w (e :: els)) as [[w' l] c].
Qed.

(** The lines of the file around the block of an [Image] element. *)
Lemma render_image_block (World : Type)
    (describe : World → bytes → str → PyVal * World)
    (images : gmap str bytes) (w w' : World)
    (before after : list element) (content text : str) :
  render World describe w (before ++ Image content :: after) images
    = ({| file := Some text; status := Ok tt |}, w') →
  ∃ lines1 block lines3 w2,
    lines_of World describe images w 0 before = Ok lines1
    ∧ lines_of World describe images w2 (S (count_images before)) after = Ok lines3
    ∧ match images !! content with
      | Some _ =>
          ∃ description,
            block = [nl ++ u8 "[ИЗОБРАЖЕНИЕ " ++ Str.of_nat (S (count_images before))
                     ++ u8 ": " ++ Path_name content ++ u8 "]";
                     description; []]
      | None =>
          block = [nl ++ u8 "[ИЗОБРАЖЕНИЕ " ++ Str.of_nat (S (count_images before))
                   ++ u8 ": " ++ Path_name content ++ u8 " - не найдено]"; []]
      end
    ∧ text = Str.join nl (lines1 ++ block ++ lines3).
Proof.
  rewrite render_nonempty by (by destruct before).
  unfold render_elements, lines_of.
  rewrite fold_left_app. cbn [fold_left].
  pose proof (render_loop_count World describe images before w [] 0) as Hcount.
  destruct (fold_left _ before _) as [[w1 lines1] count1].
  simpl in Hcount. subst count1.
  assert (∃ w2 block,
            render_element World describe images
                           (w1, lines1, count_images before) (Image content)
            = (w2, lines1 ++ block, S (count_images before))
            ∧ match images !! content with
              | Some _ =>
                  ∃ description,
                    block = [PStr (nl ++ u8 "[ИЗОБРАЖЕНИЕ "
                                   ++ Str.of_nat (S (count_images before))
                                   ++ u8 ": " ++ Path_name content ++ u8 "]");
                             description; PStr []]
              | None =>
                  block = [PStr (nl ++ u8 "[ИЗОБРАЖЕНИЕ "
                                 ++ Str.of_nat (S (count_images before))
                                 ++ u8 ": " ++ Path_name content
                                 ++ u8 " - не найдено]"); PStr []]
              end) as (w2 & block & -> & Hblock).
  { simpl. destruct (images !! content) as [data|].
    - destruct (describe w1 data (Path_name content)) as [description w2].
      exists w2. eexists. split; [done |]. by exists description.
    - exists w1. eexists. split; done. }
  rewrite render_loop_frame.
  destruct (fold_left _ after (w2, [], S (count_images before)))
    as [[w3 lines3] count3] eqn:Hafter.
  cbn [fst snd]. unfold py_join.
  destruct (py_join_items ((lines1 ++ block) ++ lines3)) as [items|e] eqn:Hitems;
    simpl; [|done].
  intros [= <- <-].
  apply py_join_items_app in Hitems as (items12 & items3 & -> & H12 & H3).
  apply py_join_items_app in H12 as (items1 & itemsb & -> & H1 & Hb).
  exists items1, itemsb, items3, w2.
  split; [exact H1 |]. split; [by rewrite Hafter |].
  split; [|by rewrite <- app_assoc].
  destruct (images !! content) as [data|].
  - destruct Hblock as [description ->]. simpl in Hb.
    destruct description as [| | | |d| |]; try done.
    injection Hb as <-. by exists d.
  - subst block. simpl in Hb. by injection Hb as <-.
Qed.

(** C4. In the text that [convert_docx_to_txt] writes, the block of an
    [Image] element stands after the lines of the elements before it and
    begins with the label that carries 1 + the number of [Image] elements
    before it: the first is numbered 1, each later one by one more, in the
    order of the sequence, and the lines of the elements after it are
    written with the counter at that number. The same holds for the body
    of the function run on any sequence and media store, where an [Image]
    element whose path is not in the store gets its number in the
    "not found" label. *)
Theorem C4_image_counters_ascending
    (World : Type) (describe : World → bytes → str → PyVal * World)
    (images : gmap str bytes)
    (before after : list element) (content : str) :
  (∀ fromstring HAS_DOCX Document z w text,
     parse_docx_structure fromstring HAS_DOCX Document z
       = Ok (before ++ Image content :: after, images) →
     (convert_docx_to_txt World describe fromstring HAS_DOCX Document w z).1
       = {| file := Some text; status := Ok tt |} →
     ∃ lines1 description lines3 w2,
       lines_of World describe images w 0 before = Ok lines1
       ∧ lines_of World describe images w2 (S (count_images before)) after
         = Ok lines3
       ∧ text
         = Str.join nl
             (lines1
              ++ [nl ++ u8 "[ИЗОБРАЖЕНИЕ " ++ Str.of_nat (S (count_images before))
                  ++ u8 ": " ++ Path_name content ++ u8 "]";
                  description; []]
              ++ lines3))
  ∧ (∀ w w' text,
       render World describe w (before ++ Image content :: after) images
         = ({| file := Some text; status := Ok tt |}, w') →
       ∃ lines1 block lines3 w2,
         lines_of World describe images w 0 before = Ok lines1
         ∧ lines_of World describe images w2 (S (count_images before)) after
           = Ok lines3
         ∧ match images !! content with
           | Some _ =>
               ∃ description,
                 block = [nl ++ u8 "[ИЗОБРАЖЕНИЕ "
                          ++ Str.of_nat (S (count_images before))
                          ++ u8 ": " ++ Path_name content ++ u8 "]";
                          description; []]
           | None =>
               block = [nl ++ u8 "[ИЗОБРАЖЕНИЕ "
                        ++ Str.of_nat (S (count_images before))
                        ++ u8 ": " ++ Path_name content ++ u8 " - не найдено]";
                        []]
           end
         ∧ text = Str.join nl (lines1 ++ block ++ lines3)).
Proof.
  split; [|intros w w' text; apply render_image_block].
  intros fromstring HAS_DOCX Document z w text Hparse Hfile.
  pose proof (parse_docx_structure_present _ _ _ _ _ _ Hparse) as Hpresent.
  apply Forall_app in Hpresent as [_ Hpresent].
  inversion Hpresent as [|e els Himage _]; subst.
  simpl in Himage. destruct Himage as [data Hdata].
  unfold convert_docx_to_txt in Hfile. rewrite Hparse in Hfile.
  destruct (render World describe w (before ++ Image content :: after) images)
    as [outcome w'] eqn:Hrender.
  simpl in Hfile. subst outcome.
  apply render_image_block in Hrender
    as (lines1 & block & lines3 & w2 & H1 & H3 & Hblock & ->).
  rewrite Hdata in Hblock. destruct Hblock as [description ->].
  by exists lines1, description, lines3, w2.
Qed.

Lemma C4_witness :
  ∃ lines1 description lines3 w2,
    lines_of unit (Fixtures.stub "<desc>")
             (extract_images_from_docx Fixtures.docx_two_images) tt 0
             [Image (u8 "word/media/A.png"); Text (u8 "Between")] = Ok lines1
    ∧ lines_of unit (Fixtures.stub "<desc>")
               (extract_images_from_docx Fixtures.docx_two_images) w2
               (S (count_images [Image (u8 "word/media/A.png");
                                 Text (u8 "Between")])) []
      = Ok lines3
    ∧ nl ++ u8 "[ИЗОБРАЖЕНИЕ 1: A.png]" ++ nl ++ u8 "<desc>" ++ nl ++ nl
      ++ u8 "Between" ++ nl ++ nl ++ nl
      ++ u8 "[ИЗОБРАЖЕНИЕ 2: B.png]" ++ nl ++ u8 "<desc>" ++ nl
      = Str.join nl
          (lines1
           ++ [nl ++ u8 "[ИЗОБРАЖЕНИЕ "
               ++ Str.of_nat (S (count_images [Image (u8 "word/media/A.png");
                                               Text (u8 "Between")]))
               ++ u8 ": " ++ Path_name (u8 "word/media/B.png") ++ u8 "]";
               description; []]
           ++ lines3).
Proof.
  destruct (C4_image_counters_ascending unit (Fixtures.stub "<desc>")
              (extract_images_from_docx Fixtures.docx_two_images)
              [Image (u8 "word/media/A.png"); Text (u8 "Between")] []
              (u8 "word/media/B.png")) as [Hconvert _].
  apply (Hconvert (Fixtures.fromstring Fixtures.trees_two) true Fixtures.opens
                  Fixtures.docx_two_images tt);
    vm_compute; reflexivity.
Defined.
